(** * Verification of the GIDatingServiceCDK deployment configuration

    Shallow embedding of
    - the stack-naming helpers of [src/lib/utils/utils.ts] and
      [src/lib/utils/contactFormatUtils.ts];
    - the stage configuration table of [src/lib/utils/config.ts] and the way
      [src/lib/app.ts] hands it to the pipeline stacks;
    - the stage list of [WebsitePipelineStack];
    - the stage-dependent parts of [DomainConfigurationStack] and
      [ContactFormStack];
    - the bootstrap script [scripts/automate_deployment.sh]. *)

From Stdlib Require Import String Ascii List ZArith Bool Lia.
Import ListNotations.
Open Scope string_scope.

(** ** String helpers mirroring the JavaScript / shell primitives *)

Module Str.

(** [s.replace(/-/g, '')]: every hyphen removed. *)
Fixpoint removeHyphens (s : string) : string :=
  match s with
  | EmptyString => EmptyString
  | String c r =>
      if Ascii.eqb c "-"%char then removeHyphens r else String c (removeHyphens r)
  end.

(** Number of occurrences of a character. *)
Fixpoint count_char (c : ascii) (s : string) : nat :=
  match s with
  | EmptyString => 0
  | String d r => (if Ascii.eqb c d then 1 else 0) + count_char c r
  end.

(** [String.prototype.toLowerCase] on ASCII. *)
Definition lower_ascii (c : ascii) : ascii :=
  let n := nat_of_ascii c in
  if (65 <=? n)%nat && (n <=? 90)%nat then ascii_of_nat (n + 32)%nat else c.

Fixpoint toLowerCase (s : string) : string :=
  match s with
  | EmptyString => EmptyString
  | String c r => String (lower_ascii c) (toLowerCase r)
  end.

(** Substring test, used for regular expressions that are plain words
    ([/Outputs:/], [/KeyArn/]). *)
Fixpoint contains (needle s : string) : bool :=
  if String.prefix needle s then true
  else match s with
       | EmptyString => false
       | String _ r => contains needle r
       end.

(** [removeHyphens] keeps every other character, in order. *)
Fixpoint non_hyphens (s : string) : list ascii :=
  match s with
  | EmptyString => []
  | String c r => if Ascii.eqb c "-"%char then non_hyphens r else c :: non_hyphens r
  end.

(** [Array.prototype.join]. *)
Fixpoint join (sep : string) (l : list string) : string :=
  match l with
  | [] => ""
  | [x] => x
  | x :: r => x ++ sep ++ join sep r
  end.

(** Decides that a list of construct ids has no duplicate. *)
Fixpoint nodupb (l : list string) : bool :=
  match l with
  | [] => true
  | x :: r => negb (existsb (String.eqb x) r) && nodupb r
  end.

End Str.

(** ** Naming helpers ([src/lib/utils/utils.ts], [constants.ts]) *)

Module Naming.
Import Str.

Definition SERVICE_STACK := "ServiceStack".
Definition VPC_STACK := "VpcStack".
Definition DEVICE_FARM_STACK := "DeviceFarmStack".
Definition DEPLOYMENT_BUCKET_STACK := "DeploymentBucketStack".
(** [CONTACT_FORM_STACK] as declared in [contactFormatUtils.ts], the only
    declaration of this constant in the sources. *)
Definition CONTACT_FORM_STACK := "ContactFormStack".

Definition FRONT_END := "FrontEnd".
Definition BACK_END := "BackEnd".
Definition WEBSITE := "Website".
Definition DOMAIN_NAME := "qandmedating.com".

Definition createServiceStackName (stage region : string) : string :=
  stage ++ removeHyphens region ++ SERVICE_STACK.

Definition createVpcStackName (stage region account : string) : string :=
  account ++ stage ++ removeHyphens region ++ VPC_STACK.

Definition createDeviceFarmStackName (stage region account : string) : string :=
  account ++ stage ++ removeHyphens region ++ DEVICE_FARM_STACK.

Definition createDeploymentBucketStackName (stage region account : string) : string :=
  account ++ stage ++ removeHyphens region ++ DEPLOYMENT_BUCKET_STACK.

Definition createWebsiteBucketStackName (stage region prefix : string) : string :=
  prefix ++ stage ++ region ++ "BucketStack".

Definition createDomainConfigStackName (stage region prefix domain : string) : string :=
  prefix ++ stage ++ region ++ "Domain" ++ domain ++ "Stack".

Definition createContactFormStackName (stage region : string) : string :=
  stage ++ removeHyphens region ++ CONTACT_FORM_STACK.

(** [DOMAIN_NAME.replace(/\./g, '-')] as passed by [app.ts]. *)
Fixpoint dotsToHyphens (s : string) : string :=
  match s with
  | EmptyString => EmptyString
  | String c r =>
      String (if Ascii.eqb c "."%char then "-"%char else c) (dotsToHyphens r)
  end.

(** The resource kinds named by the helpers. *)
Inductive resourceKind :=
  | KService | KVpc | KDeviceFarm | KDeploymentBucket
  | KWebsiteBucket | KDomainConfig | KContactForm.

Definition allKinds : list resourceKind :=
  [KService; KVpc; KDeviceFarm; KDeploymentBucket;
   KWebsiteBucket; KDomainConfig; KContactForm].

(** The stack name [app.ts] builds for a kind, with the extra arguments it
    passes there. *)
Definition appStackName (stage region : string) (k : resourceKind) : string :=
  match k with
  | KService => createServiceStackName stage region
  | KVpc => createVpcStackName stage region BACK_END
  | KDeviceFarm => createDeviceFarmStackName stage region FRONT_END
  | KDeploymentBucket => createDeploymentBucketStackName stage region FRONT_END
  | KWebsiteBucket => createWebsiteBucketStackName stage region WEBSITE
  | KDomainConfig =>
      createDomainConfigStackName stage region WEBSITE (dotsToHyphens DOMAIN_NAME)
  | KContactForm => createContactFormStackName stage region
  end.

End Naming.

(** ** Stage configuration table ([src/lib/utils/config.ts], the version
    with the optional [domainName] field that [app.ts] imports) *)

Module Config.

Definition STAGES_BETA := "Beta".
Definition STAGES_PROD := "Prod".
Definition REGIONS_US_WEST_2 := "us-west-2".
Definition REGIONS_US_EAST_1 := "us-east-1".

Record StageConfig := mkStageConfig {
  accountId : string;
  stage : string;
  region : string;
  isProd : bool;
  domainName : option string
}.

(** [betaAccountId] and [prodAccountId] come from [./accounts], which is not
    part of the sources: the table is a function of them. *)
Definition stageConfigurationList (betaAccountId prodAccountId : string)
  : list StageConfig :=
  [ {| accountId := betaAccountId; stage := STAGES_BETA;
       region := REGIONS_US_WEST_2; isProd := false;
       domainName := Some "qandmedating.com" |};
    {| accountId := prodAccountId; stage := STAGES_PROD;
       region := REGIONS_US_WEST_2; isProd := true;
       domainName := Some "qandmedating.com" |} ].

(** JavaScript array indexing [xs[i]]: [None] stands for [undefined]. *)
Definition at_index {A} (xs : list A) (i : nat) : option A := nth_error xs i.

End Config.

(** ** [WebsiteDeploymentBucketStack]
    ([src/lib/stacks/website/websiteDeploymentBucketStack.ts]) *)

Module WebsiteBucket.
Import Str.

(** The physical name of the hosting bucket, from the stage name and the
    stack's account and region ([this.account], [this.region]). *)
Definition uniqueBucketName (stageName account region : string) : string :=
  let bucketNamePrefix := "website-" ++ toLowerCase stageName ++ "-" ++ account in
  bucketNamePrefix ++ "-" ++ region.

End WebsiteBucket.

(** ** How [app.ts] builds the per-stage lists handed to the pipelines *)

Module App.
Import Str Naming Config.

Record WebsiteStackConfig := mkWebsiteStackConfig {
  wconfig : StageConfig;
  websiteBucketArn : string;
  websiteBucketName : string;
  distributionId : string;
  distributionDomainName : string
}.

Record FrontEndStackConfig := mkFrontEndStackConfig {
  fconfig : StageConfig;
  (** [deploymentBucketStack.bucketArn] is a CDK token; it is represented by
      the name of the stack that owns the bucket. *)
  frontEndCodeDeploymentBucketArn : string
}.

Record ApplicationStackConfig := mkApplicationStackConfig {
  aconfig : StageConfig
}.

(** First loop of [app.ts]: one website entry per stage record, in order. *)
Definition websiteEntry (stageConfig : StageConfig) : WebsiteStackConfig :=
  let bucketNamePrefix :=
    "website-" ++ toLowerCase (stage stageConfig) ++ "-" ++ accountId stageConfig in
  let uniqueBucketName := bucketNamePrefix ++ "-" ++ region stageConfig in
  let stageIndex :=
    if String.eqb (toLowerCase (stage stageConfig)) "beta" then 0 else 1 in
  if Nat.eqb stageIndex 0 then
    {| wconfig := stageConfig;
       websiteBucketArn := "arn:aws:s3:::" ++ uniqueBucketName;
       websiteBucketName := uniqueBucketName;
       distributionId := "E35HC17VOZGC7F";
       distributionDomainName := "https://de833z6icjhaj.cloudfront.net" |}
  else
    {| wconfig := stageConfig;
       websiteBucketArn := "arn:aws:s3:::" ++ uniqueBucketName;
       websiteBucketName := uniqueBucketName;
       distributionId := "E35HC17VOZGC7F";
       distributionDomainName := "https://de833z6icjhaj.cloudfront.net" |}.

Definition websiteServiceStackList (l : list StageConfig) : list WebsiteStackConfig :=
  map websiteEntry l.

(** Third loop of [app.ts]: the front-end and back-end lists. *)
Definition frontendServiceStackList (l : list StageConfig) : list FrontEndStackConfig :=
  map (fun stageConfig =>
         {| fconfig := stageConfig;
            frontEndCodeDeploymentBucketArn :=
              createDeploymentBucketStackName (stage stageConfig)
                (region stageConfig) FRONT_END |}) l.

Definition backendServiceStackList (l : list StageConfig) : list ApplicationStackConfig :=
  map (fun stageConfig => {| aconfig := stageConfig |}) l.

(** What a pipeline constructor reads: [stacksToDeploy[0]] as the beta
    configuration and [stacksToDeploy[1]] as the prod configuration. *)
Definition positionalConfigs {A} (stacksToDeploy : list A) : option A * option A :=
  (at_index stacksToDeploy 0, at_index stacksToDeploy 1).

End App.

(** ** [WebsitePipelineStack] ([src/lib/stacks/website/websitePipelineStack.ts]) *)

Module Pipeline.
Import Config App.

Definition WebsitePipelineStackName := "WebsitePipelineStack".
Definition TEMPLATE_ENDING := ".template.json".

Inductive actionKind :=
  | GitHubSource | CodeBuild | CfnCreateUpdateStack | S3Deploy | ManualApproval.

(** The fields of an action that the stage layout depends on. *)
Record action := mkAction {
  actionName : string;
  kind : actionKind;
  runOrder : option nat;
  role : option string;            (** role ARN passed as [role]; [None]: CDK creates one *)
  deploymentRole : option string;  (** ARN passed as [deploymentRole]; [None]: CDK creates one *)
  stackName : option string;
  projectAccount : option string;  (** account a CodeBuild project publishes to *)
  bucket : option string           (** target bucket name or ARN *)
}.

Record stageProps := mkStage { stageName : string; actions : list action }.

Record Roles := mkRoles { cloudFormation : string; codePipeline : string }.

Record AccountConfig := mkAccountConfig {
  acAccountId : string;
  roles : Roles;
  websiteConfig : WebsiteStackConfig
}.

Definition accountConfig (c : WebsiteStackConfig) : AccountConfig :=
  {| acAccountId := accountId (wconfig c);
     roles := {| cloudFormation :=
                   "arn:aws:iam::" ++ accountId (wconfig c) ++ ":role/CloudFormationDeploymentRole";
                 codePipeline :=
                   "arn:aws:iam::" ++ accountId (wconfig c) ++ ":role/CodePipelineCrossAccountRole" |};
     websiteConfig := c |}.

Definition act (n : string) (k : actionKind) : action :=
  {| actionName := n; kind := k; runOrder := None; role := None;
     deploymentRole := None; stackName := None; projectAccount := None; bucket := None |}.

Definition createSourceStage : stageProps :=
  {| stageName := "Source";
     actions := [act "GIDatingWebsite" GitHubSource; act "GIDatingServiceCDK" GitHubSource] |}.

Definition createBuildStage : stageProps :=
  {| stageName := "Build";
     actions := [act "CDK_Synth" CodeBuild; act "Website_Build" CodeBuild] |}.

Definition createPipelineUpdateStage : stageProps :=
  {| stageName := "Pipeline_Update";
     actions := [{| actionName := "SelfMutate"; kind := CfnCreateUpdateStack; runOrder := None;
                    role := None; deploymentRole := None;
                    stackName := Some WebsitePipelineStackName; projectAccount := None;
                    bucket := None |}] |}.

Definition cfnDeploy (n stack : string) (cfg : AccountConfig) (ro : nat) : action :=
  {| actionName := n; kind := CfnCreateUpdateStack; runOrder := Some ro;
     role := Some (codePipeline (roles cfg));
     deploymentRole := Some (cloudFormation (roles cfg));
     stackName := Some stack; projectAccount := None; bucket := None |}.

(** [BuildManager.cdkPublishBeta] / [cdkPublishProd] are created with the
    account id of the respective configuration. *)
Definition createBetaDeployStage (betaConfig : AccountConfig) : stageProps :=
  {| stageName := "Deploy_Beta";
     actions :=
       [ {| actionName := "PublishAssets"; kind := CodeBuild; runOrder := Some 1;
            role := None; deploymentRole := None; stackName := None;
            projectAccount := Some (acAccountId betaConfig); bucket := None |};
         cfnDeploy "DeployWebsiteBucket" "WebsiteBetaus-west-2BucketStack" betaConfig 2;
         cfnDeploy "DeployBetaDomainConfig" "WebsiteBetaus-west-2Domainqandmedating-comStack" betaConfig 3;
         cfnDeploy "DeployBetaContactForm" "Betauswest2ContactFormStack" betaConfig 4;
         {| actionName := "DeployWebsiteContent"; kind := S3Deploy; runOrder := Some 5;
            role := Some (codePipeline (roles betaConfig)); deploymentRole := None;
            stackName := None; projectAccount := None;
            bucket := Some (websiteBucketName (websiteConfig betaConfig)) |};
         {| actionName := "ManualCacheInvalidation"; kind := ManualApproval; runOrder := Some 6;
            role := None; deploymentRole := None; stackName := None;
            projectAccount := None; bucket := None |} ] |}.

Definition createApprovalStage (betaConfig : AccountConfig) : stageProps :=
  {| stageName := "Manual_Approval"; actions := [act "Approve" ManualApproval] |}.

Definition createProdDeployStage (prodConfig : AccountConfig) : stageProps :=
  {| stageName := "Deploy_Prod";
     actions :=
       [ {| actionName := "PublishAssets"; kind := CodeBuild; runOrder := Some 1;
            role := None; deploymentRole := None; stackName := None;
            projectAccount := Some (acAccountId prodConfig); bucket := None |};
         cfnDeploy "DeployWebsiteBucket" "WebsiteProdus-west-2BucketStack" prodConfig 2;
         cfnDeploy "DeployProdDomainConfig" "WebsiteProdus-west-2Domainqandmedating-comStack" prodConfig 3;
         cfnDeploy "DeployProdContactForm" "Produswest2ContactFormStack" prodConfig 4;
         {| actionName := "DeployWebsiteContent"; kind := S3Deploy; runOrder := Some 5;
            role := Some (codePipeline (roles prodConfig)); deploymentRole := None;
            stackName := None; projectAccount := None;
            bucket := Some (websiteBucketArn (websiteConfig prodConfig)) |};
         {| actionName := "ManualCacheInvalidation"; kind := ManualApproval; runOrder := Some 6;
            role := None; deploymentRole := None; stackName := None;
            projectAccount := None; bucket := None |} ] |}.

(** The [stages] of the [codepipeline.Pipeline] built by the constructor,
    or [None] when [stacksToDeploy[0]] or [[1]] is undefined (the
    constructor then throws on [betaConfig.config]). The constructor can
    also throw in CDK's own validation ([Bucket.fromBucketName] with an
    empty name, [Bucket.fromBucketAttributes] with a malformed ARN), which
    is not modelled: [Some] gives the stages the constructor lays out, not
    a guarantee that it succeeds. *)
Definition WebsitePipelineStack (stacksToDeploy : list WebsiteStackConfig)
  : option (list stageProps) :=
  match positionalConfigs stacksToDeploy with
  | (Some betaConfig, Some prodConfig) =>
      let betaAccountConfig := accountConfig betaConfig in
      let prodAccountConfig := accountConfig prodConfig in
      Some [ createSourceStage;
             createBuildStage;
             createPipelineUpdateStage;
             createBetaDeployStage betaAccountConfig;
             createApprovalStage betaAccountConfig;
             createProdDeployStage prodAccountConfig ]
  | _ => None
  end.

(** Human gates between the beta deployment and the prod deployment: the
    manual approvals of [Deploy_Beta] that run after all its other actions,
    and every manual approval of the stages strictly between [Deploy_Beta]
    and [Deploy_Prod]. Each gate is reported as (stage, action). *)
Definition isManual (a : action) : bool :=
  match kind a with ManualApproval => true | _ => false end.

Definition ro (a : action) : nat := match runOrder a with Some n => n | None => 1 end.

Definition lastAutomatedRunOrder (acts : list action) : nat :=
  fold_left (fun m a => if isManual a then m else Nat.max m (ro a)) acts 0.

Fixpoint gatesAfterBeta (stages : list stageProps) : list (string * string) :=
  match stages with
  | [] => []
  | s :: rest =>
      if String.eqb (stageName s) "Deploy_Prod" then []
      else map (fun a => (stageName s, actionName a)) (filter isManual (actions s))
           ++ gatesAfterBeta rest
  end.

Fixpoint humanGatesBetweenBetaAndProd (stages : list stageProps) : list (string * string) :=
  match stages with
  | [] => []
  | s :: rest =>
      if String.eqb (stageName s) "Deploy_Beta" then
        let last := lastAutomatedRunOrder (actions s) in
        map (fun a => (stageName s, actionName a))
            (filter (fun a => isManual a && Nat.ltb last (ro a)) (actions s))
        ++ gatesAfterBeta rest
      else humanGatesBetweenBetaAndProd rest
  end.

Definition stageNames (ss : list stageProps) : list string := map stageName ss.

(** The claim read literally: the only human gate between the beta and the
    prod deployment is the action of the [Manual_Approval] stage. *)
Definition only_gate_is_manual_approval (ss : list stageProps) : Prop :=
  humanGatesBetweenBetaAndProd ss = [("Manual_Approval", "Approve")].

(** Projection of an action on what C8 is about. *)
Definition actionShape (a : action) :=
  (actionName a, kind a, runOrder a, role a, deploymentRole a, projectAccount a, bucket a).

Definition cpRole (acct : string) := "arn:aws:iam::" ++ acct ++ ":role/CodePipelineCrossAccountRole".
Definition cfRole (acct : string) := "arn:aws:iam::" ++ acct ++ ":role/CloudFormationDeploymentRole".

(** *** [OutputManager] *)

(** [x ?? d]. *)
Definition nullish (x : option string) (d : string) : string :=
  match x with Some v => v | None => d end.

Definition dq : string := String (ascii_of_nat 34) EmptyString.

(** [createOutputs]: (output id, value). The key and bucket ARNs are CDK
    tokens of the [SecurityManager]; they are passed as arguments. *)
Definition createOutputs (keyArn artifactBucketArn : string)
  (betaConfig prodConfig : AccountConfig) : list (string * string) :=
  [ ("WebsiteArtifactBucketEncryptionKeyArn", keyArn);
    ("WebsiteArtifactBucketArn", artifactBucketArn);
    ("BetaWebsiteUrl",
       "https://beta." ++ nullish (domainName (wconfig (websiteConfig betaConfig))) "qandmedating.com");
    ("BetaInvalidationCommand",
       "aws cloudfront create-invalidation --distribution-id "
       ++ distributionId (websiteConfig betaConfig) ++ " --paths " ++ dq ++ "/*" ++ dq
       ++ " --profile beta");
    ("ProdWebsiteUrl",
       "https://" ++ nullish (domainName (wconfig (websiteConfig prodConfig))) "qandmedating.com");
    ("ProdInvalidationCommand",
       "aws cloudfront create-invalidation --distribution-id "
       ++ distributionId (websiteConfig prodConfig) ++ " --paths " ++ dq ++ "/*" ++ dq
       ++ " --profile prod") ].

Definition output_value (id : string) (outs : list (string * string)) : option string :=
  option_map snd (find (fun o => String.eqb (fst o) id) outs).

(** [configurePipelinePermissions]: the resources of the [sts:AssumeRole]
    statement of the pipeline role. *)
Definition assumeRoleResources (betaConfig prodConfig : AccountConfig) : list string :=
  [ "arn:aws:iam::" ++ accountId (wconfig (websiteConfig betaConfig)) ++ ":role/*";
    "arn:aws:iam::" ++ accountId (wconfig (websiteConfig prodConfig)) ++ ":role/*" ].

(** [SecurityManager.createKmsKey]: the role principals of the
    [AllowCrossAccountRoleAccess] statement of the artifact key policy. *)
Definition keyRolePrincipals (betaConfig prodConfig : AccountConfig) : list string :=
  [ codePipeline (roles betaConfig); cloudFormation (roles betaConfig);
    codePipeline (roles prodConfig); cloudFormation (roles prodConfig) ].

(** IAM resource matching: [*] matches any sequence, [?] any character. *)
Fixpoint star_match (f : string -> bool) (t : string) : bool :=
  f t || match t with EmptyString => false | String _ t' => star_match f t' end.

Fixpoint iam_match (pat s : string) : bool :=
  match pat with
  | EmptyString => String.eqb s ""
  | String c r =>
      if Ascii.eqb c "*" then star_match (iam_match r) s
      else if Ascii.eqb c "?" then
        match s with EmptyString => false | String _ t => iam_match r t end
      else
        match s with EmptyString => false | String d t => Ascii.eqb c d && iam_match r t end
  end.

(** The role ARNs the actions of the pipeline assume: [role] and
    [deploymentRole]. *)
Definition actionRoles (a : action) : list string :=
  match role a with Some r => [r] | None => [] end ++
  match deploymentRole a with Some r => [r] | None => [] end.

Definition pipelineRoles (ss : list stageProps) : list string :=
  flat_map (fun s => flat_map actionRoles (actions s)) ss.

End Pipeline.

(** ** [DomainConfigurationStack] and [ContactFormStack]
    ([src/lib/stacks/website/]) *)

Module Domain.
Import Str Config.

Record DomainConfigurationStackProps := mkDomainProps {
  stageName : string;
  domainName : string;
  bucketName : string;
  certificateArn : string;
  distributionId : option string;
  deployDistribution : option bool
}.

Definition formatDomainName (domainName stageName : string) : string :=
  if String.eqb stageName STAGES_PROD then domainName
  else toLowerCase stageName ++ "." ++ domainName.

(** The constructs the constructor adds, identified by their construct ids,
    in creation order. *)
Definition createSubdomainDelegation (stageName : string) : list string :=
  if String.eqb stageName STAGES_PROD
  then ["BetaSubdomainDelegation"; "BetaSubdomainDelegationCreated"] else [].

Definition createHostedZoneOutputs : list string :=
  ["HostedZoneId"; "DomainName"; "NameServers"; "NextSteps"].

Definition getCertificate (stageName : string) : list string :=
  if String.eqb stageName STAGES_BETA then ["ExistingCertificate"] else [].

Definition createCloudFrontFunctions (stageName : string) : list string :=
  ["SPARedirectFunction"] ++
  (if String.eqb stageName STAGES_BETA then ["BasicAuthFunction"] else []).

Definition createEmailRecords : list string := ["MxRecords"; "SpfRecord"].

Definition createDnsRecords (stageName fullDomainName domainName : string) : list string :=
  ["AliasRecord"] ++
  (if String.eqb fullDomainName domainName then ["WwwAliasRecord"] else []) ++
  (if String.eqb stageName STAGES_PROD then createEmailRecords else []).

Definition createOutputs (stageName : string) : list string :=
  ["HostedZoneId"; "DomainName"] ++
  (if String.eqb stageName STAGES_BETA then ["BetaCredentials"] else []) ++
  ["DistributionId"; "DistributionDomainName"; "LogBucketName"; "LogGroupName";
   "InvalidationCommand"].

Definition DomainConfigurationStack (props : DomainConfigurationStackProps) : list string :=
  let fullDomainName := formatDomainName (domainName props) (stageName props) in
  let shouldDeployDistribution :=
    negb (String.eqb (stageName props) STAGES_PROD) ||
    match deployDistribution props with Some b => b | None => true end in
  ["HostedZone"] ++ createSubdomainDelegation (stageName props) ++
  if negb shouldDeployDistribution then
    createHostedZoneOutputs ++ ["DistributionStatus"]
  else
    ["WebsiteBucket"; "WebsiteOAI"] ++ getCertificate (stageName props) ++
    ["CloudFrontLogBucket"; "CloudFrontLogGroup"] ++
    createCloudFrontFunctions (stageName props) ++
    ["WebsiteDistribution"] ++
    createDnsRecords (stageName props) fullDomainName (domainName props) ++
    createOutputs (stageName props).

(** The claim read literally: what the DomainConfigurationStack creates is
    decided by the stage label alone. *)
Definition constructs_decided_by_stage : Prop :=
  forall p1 p2, Domain.stageName p1 = Domain.stageName p2 ->
    DomainConfigurationStack p1 = DomainConfigurationStack p2.

Definition effectiveDeploy (p : DomainConfigurationStackProps) : bool :=
  match deployDistribution p with Some b => b | None => true end.

End Domain.

Module ContactForm.

Inductive RemovalPolicy := RETAIN | DESTROY.

Record ContactFormTable := mkTable {
  tableName : string;
  removalPolicy : RemovalPolicy;
  pointInTimeRecovery : bool
}.

Definition contactTable (stageName : string) : ContactFormTable :=
  {| tableName := "ContactForm-" ++ stageName;
     removalPolicy := if String.eqb stageName "Prod" then RETAIN else DESTROY;
     pointInTimeRecovery := String.eqb stageName "Prod" |}.

(** The Lambda's [ALLOWED_ORIGINS] environment variable. *)
Definition ALLOWED_ORIGINS (stageName : string) : string :=
  if String.eqb stageName "Prod"
  then "https://qandmedating.com,https://www.qandmedating.com"
  else "https://beta.qandmedating.com,http://localhost:3000".

(** [defaultCorsPreflightOptions.allowOrigins] of the REST API. *)
Definition allowOrigins (stageName : string) : list string :=
  if String.eqb stageName "Prod"
  then ["https://qandmedating.com"; "https://www.qandmedating.com"]
  else ["https://beta.qandmedating.com"; "http://localhost:3000"].

(** [method.response.header.Access-Control-Allow-Origin] of both integration
    responses (200 and 400). *)
Definition integrationAllowOrigin (stageName : string) : string :=
  if String.eqb stageName "Prod"
  then "'https://qandmedating.com'" else "'https://beta.qandmedating.com'".

(** [getContactFormApiEndpoint] ([src/lib/utils/contactFormatUtils.ts]). *)
Definition getContactFormApiEndpoint (stage : string) : string :=
  if String.eqb stage Config.STAGES_BETA
  then "https://api-endpoint-for-beta.execute-api.us-west-2.amazonaws.com/prod/contact"
  else "https://api-endpoint-for-prod.execute-api.us-west-2.amazonaws.com/prod/contact".

(** *** The inline Lambda handler

    The parsed request body: JSON that does not parse (or [event.body]
    null), the JSON value [null], a non-object value (a number, string,
    boolean or array, whose [.email] is [undefined]), or an object whose
    fields are strings or absent. *)
Record submission := mkSubmission {
  email : option string;
  name : option string;
  subject : option string;
  message : option string
}.

Inductive parsedBody :=
  | ParseError | JSONNull | JSONNonObject | JSONObject (b : submission).

Record contactEvent := mkEvent {
  httpMethod : string;
  body : parsedBody;
  sourceIp : option string
}.

Record item := mkItem {
  itemEmail : string;
  timestamp : string;
  date : string;
  itemName : option string;
  itemSubject : option string;
  itemMessage : option string;
  ipAddress : string
}.

Record response := mkResponse {
  statusCode : nat;
  allowOrigin : string;   (** the [Access-Control-Allow-Origin] header *)
  responseMessage : string
}.

(** JavaScript truthiness of an optional string field. *)
Definition truthy (x : option string) : bool :=
  match x with Some v => negb (String.eqb v "") | None => false end.

(** [x || d] for an optional string: [d] when [x] is undefined or empty. *)
Definition or_default (x : option string) (d : string) : string :=
  match x with Some v => if String.eqb v "" then d else v | None => d end.

Definition opt_eqb (x : option string) (v : string) : bool :=
  match x with Some w => String.eqb w v | None => false end.

(** [parseInt(process.env.MAX_ITEMS) || 10000] with [MAX_ITEMS = '10000']
    (written as a product to keep the unary literal small). *)
Definition maxItems : nat := 100 * 100.

(** [timestamp.split('T')[0]]. *)
Fixpoint before_T (s : string) : string :=
  match s with
  | EmptyString => EmptyString
  | String c r => if Ascii.eqb c "T" then EmptyString else String c (before_T r)
  end.

(** [dynamoDB.put]: the table's key is ([email], [timestamp]); an item with
    the same key is replaced. *)
Definition same_key (a b : item) : bool :=
  String.eqb (itemEmail a) (itemEmail b) && String.eqb (timestamp a) (timestamp b).

Definition put (it : item) (table : list item) : list item :=
  if existsb (same_key it) table
  then map (fun x => if same_key it x then it else x) table
  else table ++ [it].

Section Handler.
(** [Select: 'COUNT'] scan of the table, and the current time
    ([new Date().toISOString()]). *)
Variable scanCount : list item -> nat.
Variable now : string.

Definition handler (stageName : string) (event : contactEvent) (table : list item)
  : response * list item :=
  let resp (code : nat) (msg : string) := mkResponse code (ALLOWED_ORIGINS stageName) msg in
  if String.eqb (httpMethod event) "OPTIONS" then
    (resp 200 "CORS preflight response successful", table)
  else
    match body event with
    | ParseError | JSONNull => (resp 500 "Error processing submission", table)
    | JSONNonObject =>
        (resp 400 "Missing required field: email. Please provide an email address.", table)
    | JSONObject b =>
        if negb (truthy (email b)) then
          (resp 400 "Missing required field: email. Please provide an email address.", table)
        else if negb (opt_eqb (subject b) "Waitlist Registration") &&
                (negb (truthy (name b)) || negb (truthy (subject b)) || negb (truthy (message b)))
        then
          (resp 400 "Missing required fields. Please provide name, email, subject and message.", table)
        else if Nat.leb maxItems (scanCount table) then
          (resp 500 "Internal server error", table)
        else
          let it := {| itemEmail := Pipeline.nullish (email b) "";
                       timestamp := now;
                       date := before_T now;
                       itemName := name b;
                       itemSubject := subject b;
                       itemMessage := message b;
                       ipAddress := or_default (sourceIp event) "unknown" |} in
          (resp 200 (if opt_eqb (subject b) "Waitlist Registration"
                     then "Waitlist registration received successfully"
                     else "Contact form submission received successfully"),
           put it table)
    end.

End Handler.

(** The fields every stored submission has: a non-empty email and subject,
    and a name and message unless it is a waitlist registration. *)
Definition valid_item (it : item) : bool :=
  negb (String.eqb (itemEmail it) "") && truthy (itemSubject it) &&
  (opt_eqb (itemSubject it) "Waitlist Registration" ||
   (truthy (itemName it) && truthy (itemMessage it))).

(** The table after the Lambda has served a sequence of requests, each
    paired with the [new Date().toISOString()] of its invocation. *)
Definition serve scanCount stage (reqs : list (string * contactEvent)) (t : list item) :=
  fold_left (fun tb q => snd (handler scanCount (fst q) stage (snd q) tb)) reqs t.

End ContactForm.

(** ** Second loop of [app.ts]: the website, domain and contact-form stacks
    of each stage *)

Module AppStacks.
Import Str Naming Config App.

(** [String.prototype.replace] with a string pattern: the first occurrence. *)
Fixpoint replace_first (pat rep s : string) : string :=
  if String.prefix pat s then rep ++ substring (String.length pat) (String.length s) s
  else match s with
       | EmptyString => EmptyString
       | String c r => String c (replace_first pat rep r)
       end.

(** The bucket name of the [WebsiteDeploymentBucketStack] that [app.ts]
    creates for a stage record, whose [env] is the record's account and
    region. *)
Definition websiteBucketStackBucketName (stageConfig : StageConfig) : string :=
  WebsiteBucket.uniqueBucketName (stage stageConfig) (accountId stageConfig) (region stageConfig).

(** [domainConfigStackProps]. [app.ts] imports [BETA_CERTIFICATE_ARN],
    [PROD_CERTIFICATE_ARN] and [DEPLOY_PROD_DISTRIBUTION] from
    [utils/constants], whose listing does not declare them: they are
    parameters. The spread [...(stage === STAGES.PROD && {...})] sets
    [deployDistribution] for the Prod stage only. *)
Definition domainConfigStackProps (BETA_CERTIFICATE_ARN PROD_CERTIFICATE_ARN : string)
  (DEPLOY_PROD_DISTRIBUTION : bool) (stageConfig : StageConfig)
  : Domain.DomainConfigurationStackProps :=
  let bucketNamePrefix :=
    "website-" ++ toLowerCase (stage stageConfig) ++ "-" ++ accountId stageConfig in
  let bucketName := bucketNamePrefix ++ "-" ++ region stageConfig in
  {| Domain.stageName := stage stageConfig;
     Domain.domainName := DOMAIN_NAME;
     Domain.bucketName := bucketName;
     Domain.certificateArn :=
       if String.eqb (stage stageConfig) STAGES_BETA
       then replace_first "${AWS::AccountId}" (accountId stageConfig) BETA_CERTIFICATE_ARN
       else replace_first "${AWS::AccountId}" (accountId stageConfig) PROD_CERTIFICATE_ARN;
     Domain.distributionId := None;
     Domain.deployDistribution :=
       if String.eqb (stage stageConfig) STAGES_PROD
       then Some DEPLOY_PROD_DISTRIBUTION else None |}.

End AppStacks.

(** ** The bootstrap script [scripts/automate_deployment.sh]

    The script runs under [#!/bin/bash] without [set -e] or [set -u]: an
    unset variable expands to the empty string and a failing command does not
    stop the script. Every executed external command and every [printf] is
    recorded with its script line; the external world supplies the output
    lines of each [npx cdk deploy], the stdout of command substitutions and
    the exit status of each command. *)

Module Script.
Import Str.

Inductive event :=
  | EPrint (line : nat) (fmt : string)
  | ECmd (line : nat) (argv : list string).

Definition event_line (e : event) : nat :=
  match e with EPrint l _ => l | ECmd l _ => l end.

Definition is_cmd (e : event) : bool :=
  match e with ECmd _ _ => true | EPrint _ _ => false end.

Record world := mkWorld {
  cdkOutput : string -> list string;    (** lines of [npx cdk deploy <stack> 2>&1] *)
  cmdStdout : list string -> string;    (** stdout of a command substitution *)
  cmdStatus : list string -> Z          (** exit status of an external command *)
}.

Definition env := string -> option string.

(** [${VAR}] without [set -u]. *)
Definition expand (e : env) (v : string) : string :=
  match e v with Some s => s | None => "" end.

(** [[[ -z s ]]]. *)
Definition is_empty (s : string) : bool := String.eqb s "".

(** *** [printf] exit status: 1 on a malformed conversion, 0 otherwise. *)
Definition is_flag_or_width (c : ascii) : bool :=
  existsb (Ascii.eqb c) (list_ascii_of_string "-+ #0123456789.").

Definition is_conversion (c : ascii) : bool :=
  existsb (Ascii.eqb c) (list_ascii_of_string "diouxXfeEgGaAcsbq%").

Fixpoint fmt_ok (in_spec : bool) (s : string) : bool :=
  match s with
  | EmptyString => negb in_spec
  | String c r =>
      if in_spec then
        if is_flag_or_width c then fmt_ok true r
        else if is_conversion c then fmt_ok false r
        else false
      else if Ascii.eqb c "%" then fmt_ok true r else fmt_ok false r
  end.

Definition printf_status (fmt : string) : Z := if fmt_ok false fmt then 0 else 1.

(** *** Word splitting of an unquoted expansion (IFS = space, tab, newline) *)
Definition is_ifs (c : ascii) : bool :=
  Ascii.eqb c " " || Ascii.eqb c (ascii_of_nat 9) || Ascii.eqb c (ascii_of_nat 10).

Fixpoint split_acc (cur : string) (s : string) : list string :=
  match s with
  | EmptyString => if is_empty cur then [] else [cur]
  | String c r =>
      if is_ifs c then (if is_empty cur then [] else [cur]) ++ split_acc "" r
      else split_acc (cur ++ String c EmptyString) r
  end.

Definition word_split (s : string) : list string := split_acc "" s.

(** *** Output scraping: [sed -n -e '/Outputs:/,/^$/ p'] then
    [awk -F " " '/PAT/ { print $3 }'] inside [$( )] *)
Fixpoint sed_outputs (in_range : bool) (ls : list string) : list string :=
  match ls with
  | [] => []
  | l :: r =>
      if in_range then l :: sed_outputs (negb (is_empty l)) r
      else if contains "Outputs:" l then l :: sed_outputs true r
      else sed_outputs false r
  end.

Definition awk_field3 (l : string) : string := nth 2 (word_split l) "".

Definition awk_print3 (pat : string) (ls : list string) : string :=
  fold_right (fun l acc =>
                if contains pat l then awk_field3 l ++ String (ascii_of_nat 10) acc
                else acc) "" ls.

(** Command substitution drops the trailing newlines. *)
Fixpoint drop_newlines (l : list ascii) : list ascii :=
  match l with
  | c :: r => if Ascii.eqb c (ascii_of_nat 10) then drop_newlines r else l
  | [] => []
  end.

Definition strip_trailing_newlines (s : string) : string :=
  string_of_list_ascii (rev (drop_newlines (rev (list_ascii_of_string s)))).

Definition scrape (w : world) (stack pat : string) : string :=
  strip_trailing_newlines (awk_print3 pat (sed_outputs false (cdkOutput w stack))).

(** *** Execution state and sequencing *)
Record st := mkSt { trace : list event; status : Z }.

Inductive res := Running (s : st) | Exited (s : st) (code : Z).

Definition M := st -> res.

Definition seq (m k : M) : M :=
  fun s => match m s with Running s' => k s' | Exited s' c => Exited s' c end.
Infix ";;" := seq (at level 61, right associativity).

Definition printf (line : nat) (fmt : string) : M :=
  fun s => Running (mkSt (trace s ++ [EPrint line fmt]) (printf_status fmt)).

Definition run (w : world) (line : nat) (argv : list string) : M :=
  fun s => Running (mkSt (trace s ++ [ECmd line argv]) (cmdStatus w argv)).

(** [exit] with no argument: the status of the last command. *)
Definition exit_ : M := fun s => Exited s (status s).

(** [if [[ c ]]; then m; fi]: status 0 when the branch is not taken. *)
Definition if_ (c : bool) (m : M) : M :=
  fun s => if c then m s else Running (mkSt (trace s) 0).

(** [m1 && m2]. *)
Definition and_ (m1 m2 : M) : M :=
  fun s => match m1 s with
           | Running s' => if (status s' =? 0)%Z then m2 s' else Running s'
           | Exited s' c => Exited s' c
           end.

Definition aws_cfn_deploy (template stack profile : string) (overrides : list string)
  : list string :=
  ["aws"; "cloudformation"; "deploy"; "--template-file"; template;
   "--stack-name"; stack; "--capabilities"; "CAPABILITY_NAMED_IAM";
   "--profile"; profile; "--parameter-overrides"] ++ overrides.

Definition CPX := "cfnRolesTemplates/CodePipelineCrossAccountRole.yml".
Definition CFD := "cfnRolesTemplates/CloudFormationDeploymentRole.yml".

Definition cdk_deploy (stack : string) (PROD BETA out : string) : list string :=
  ["npx"; "cdk"; "deploy"; stack; "--context"] ++ word_split ("prod-account=" ++ PROD) ++
  ["--context"] ++ word_split ("beta-account=" ++ BETA) ++
  ["--profile"; "pipeline"; "--require-approval"; "never"; "--output"; out].

Definition CDK_OUTPUT_FILE := ".cdk_output".

(** Lines 56-65 (and their two repetitions): clean up, deploy a pipeline
    stack through [tee], extract the [Outputs:] section, run [awk]. *)
Definition deploy_and_scrape (w : world) (l : nat) (stack PROD BETA out pat : string) : M :=
  run w l ["rm"; "-rf"; CDK_OUTPUT_FILE; ".cfn_outputs"] ;;
  run w (l + 1) (cdk_deploy stack PROD BETA out) ;;
  run w (l + 1) ["tee"; "-a"; CDK_OUTPUT_FILE] ;;
  run w (l + 8) ["sed"; "-n"; "-e"; "/Outputs:/,/^$/ p"; CDK_OUTPUT_FILE] ;;
  run w (l + 9) ["awk"; "-F"; " "; "/" ++ pat ++ "/ { print $3 }"; ".cfn_outputs"].

Definition describe (stack query : string) : list string :=
  ["aws"; "cloudformation"; "describe-stacks"; "--stack-name"; stack;
   "--profile"; "beta"; "--query"; query; "--output"; "text"].

Definition automate_deployment (e : env) (w : world) : M :=
  let PIPELINE_ACCOUNT_ID := expand e "PIPELINE_ACCOUNT_ID" in
  let BETA_ACCOUNT_ID := expand e "BETA_ACCOUNT_ID" in
  let PROD_ACCOUNT_ID := expand e "PROD_ACCOUNT_ID" in
  let P := word_split ("PipelineAccountID=" ++ PIPELINE_ACCOUNT_ID) in
  (* lines 10-16 *)
  if_ (is_empty PIPELINE_ACCOUNT_ID || is_empty BETA_ACCOUNT_ID || is_empty PROD_ACCOUNT_ID)
    (printf 11 "Please set PIPELINE_ACCOUNT_ID, BETA_ACCOUNT_ID, and PROD_ACCOUNT_ID\n" ;;
     printf 12 ("PIPELINE_ACCOUNT_ID = " ++ PIPELINE_ACCOUNT_ID ++ "\n") ;;
     printf 13 ("BETA_ACCOUNT_ID = " ++ BETA_ACCOUNT_ID ++ "\n") ;;
     printf 14 ("PROD_ACCOUNT_ID = " ++ PROD_ACCOUNT_ID ++ "\n") ;;
     exit_) ;;
  (* lines 19-41: bare roles *)
  printf 19 "\nDeploying roles to BETA and Prod\n" ;;
  run w 20 (aws_cfn_deploy CPX "CodePipelineCrossAccountRole" "beta" (P ++ ["Stage=Beta"])) ;;
  run w 26 (aws_cfn_deploy CFD "CloudFormationDeploymentRole" "beta" (P ++ ["Stage=Beta"])) ;;
  run w 32 (aws_cfn_deploy CPX "CodePipelineCrossAccountRole" "prod" (P ++ ["Stage=Prod"])) ;;
  run w 37 (aws_cfn_deploy CFD "CloudFormationDeploymentRole" "prod" (P ++ ["Stage=Prod"])) ;;
  (* lines 44-51: build *)
  printf 44 "\nBuilding CDK app\n" ;;
  run w 45 ["npm"; "install"] ;;
  run w 46 ["npm"; "audit"; "fix"] ;;
  run w 47 ["npm"; "run"; "build"] ;;
  run w 50 ["rm"; "-rf"; "cdk.out"] ;;
  run w 51 ["mkdir"; "-p"; "cdk.out"] ;;
  (* lines 54-71: backend pipeline and its key ARN *)
  printf 54 "\nDeploying Cross-Account Deployment Pipeline Stack\n" ;;
  deploy_and_scrape w 56 "PipelineDeploymentStack" PROD_ACCOUNT_ID BETA_ACCOUNT_ID
    "cdk.out/pipeline" "KeyArn" ;;
  let KEY_ARN := scrape w "PipelineDeploymentStack" "KeyArn" in
  if_ (is_empty KEY_ARN)
    (printf 69 "\nSomething went wrong - we didn't get a Key ARN as an output from the CDK Pipeline deployment" ;;
     exit_) ;;
  (* lines 74-89: front-end pipeline *)
  deploy_and_scrape w 74 "FrontEndPipelineDeploymentStack" PROD_ACCOUNT_ID BETA_ACCOUNT_ID
    "cdk.out/frontend-pipeline" "KeyArn" ;;
  let FRONT_END_KEY_ARN := scrape w "FrontEndPipelineDeploymentStack" "KeyArn" in
  if_ (is_empty FRONT_END_KEY_ARN)
    (printf 87 "\nSomething went wrong - we didn't get a Key ARN as an output from the Frontend CDK Pipeline deployment" ;;
     exit_) ;;
  (* lines 92-107: website pipeline *)
  deploy_and_scrape w 92 "WebsitePipelineStack" PROD_ACCOUNT_ID BETA_ACCOUNT_ID
    "cdk.out/website-pipeline" "WebsiteArtifactBucketEncryptionKeyArn" ;;
  let WEBSITE_KEY_ARN :=
    scrape w "WebsitePipelineStack" "WebsiteArtifactBucketEncryptionKeyArn" in
  if_ (is_empty WEBSITE_KEY_ARN)
    (printf 105 "\nSomething went wrong - we didn't get a Key ARN as an output from the Website CDK Pipeline deployment" ;;
     exit_) ;;
  (* lines 110-133: role patching *)
  let K := (word_split ("KeyArn=" ++ KEY_ARN) ++
            word_split ("FrontEndKeyArn=" ++ FRONT_END_KEY_ARN) ++
            word_split ("WebsiteKeyArn=" ++ WEBSITE_KEY_ARN))%list in
  printf 110 "\nUpdating roles with policies in BETA and Prod\n" ;;
  run w 111 (aws_cfn_deploy CPX "CodePipelineCrossAccountRole" "beta" (P ++ ["Stage=Beta"] ++ K)) ;;
  run w 117 (aws_cfn_deploy CFD "CloudFormationDeploymentRole" "beta" (P ++ ["Stage=Beta"] ++ K)) ;;
  run w 123 (aws_cfn_deploy CFD "CloudFormationDeploymentRole" "prod" (P ++ ["Stage=Prod"] ++ K)) ;;
  run w 129 (aws_cfn_deploy CPX "CodePipelineCrossAccountRole" "prod" (P ++ ["Stage=Prod"] ++ K)) ;;
  (* lines 136-162: commit, report, clean up *)
  printf 136 "\nCommitting code to repository\n" ;;
  and_ (run w 137 ["git"; "add"; "."])
       (and_ (run w 137 ["git"; "commit"; "-m"; "Automated Commit"])
             (run w 137 ["git"; "push"])) ;;
  printf 140 "\nUse the following commands to get the Endpoints for deployed environments: " ;;
  printf 141 "\n  aws cloudformation describe-stacks --stack-name Betauswest2ServiceStack   --profile beta | grep OutputValue" ;;
  printf 145 "\nWebsite URLs:" ;;
  let q1 := describe "WebsiteBetaus-west-2BucketStack"
              "Stacks[0].Outputs[?OutputKey==`WebsiteURLOutput`].OutputValue" in
  run w 146 q1 ;;
  printf 146 ("\n  Beta CloudFront: " ++ strip_trailing_newlines (cmdStdout w q1)) ;;
  printf 150 "\nDomain Configuration (Beta only):" ;;
  let q2 := describe "WebsiteBetaus-west-2Domainqandmedating-comStack"
              "Stacks[0].Outputs[?OutputKey==`DomainName`].OutputValue" in
  run w 151 q2 ;;
  printf 151 ("\n  Beta Domain: " ++ strip_trailing_newlines (cmdStdout w q2)) ;;
  let q3 := describe "WebsiteBetaus-west-2Domainqandmedating-comStack"
              "Stacks[0].Outputs[?OutputKey==`NameServers`].OutputValue" in
  run w 153 q3 ;;
  printf 153 ("\n  Name Servers: " ++ strip_trailing_newlines (cmdStdout w q3)) ;;
  run w 157 ["rm"; "-f"; CDK_OUTPUT_FILE; ".cfn_outputs"] ;;
  printf 160 "\nTo check certificate validation status (must be ISSUED before your site will work):" ;;
  printf 161 "\naws acm list-certificates --region us-east-1 --profile beta | grep qandmedating" ;;
  printf 162 "\naws acm describe-certificate --region us-east-1 --profile beta --certificate-arn YOUR_CERT_ARN | grep Status\n".

(** A run from the initial state; reaching the end of the script exits with
    the last status. *)
Definition run_script (e : env) (w : world) : res :=
  match automate_deployment e w (mkSt [] 0) with
  | Running s => Exited s (status s)
  | r => r
  end.

Definition outcome_trace (r : res) : list event :=
  match r with Running s => trace s | Exited s _ => trace s end.

(** A world whose deploy outputs carry an empty [Outputs:] section, and an
    environment with the three account ids set. *)
Definition silent_world : world :=
  mkWorld (fun _ => ["Outputs:"; ""]) (fun _ => "") (fun _ => 0%Z).

Definition accounts_set : env :=
  fun v => if String.eqb v "PIPELINE_ACCOUNT_ID" then Some "111111111111"
           else if String.eqb v "BETA_ACCOUNT_ID" then Some "222222222222"
           else if String.eqb v "PROD_ACCOUNT_ID" then Some "333333333333"
           else None.

(** The role-patching step: the four deploys of lines 111-133. *)
Definition is_role_patch (e : event) : bool :=
  match e with
  | ECmd l _ => existsb (Nat.eqb l) [111; 117; 123; 129]
  | EPrint _ _ => false
  end.

(** The condition of the guard of lines 10-16 and the three scraped key
    ARNs. *)
Definition env_guard (e : env) : bool :=
  is_empty (expand e "PIPELINE_ACCOUNT_ID") || is_empty (expand e "BETA_ACCOUNT_ID")
  || is_empty (expand e "PROD_ACCOUNT_ID").

Definition KEY_ARN (w : world) : string := scrape w "PipelineDeploymentStack" "KeyArn".
Definition FRONT_END_KEY_ARN (w : world) : string :=
  scrape w "FrontEndPipelineDeploymentStack" "KeyArn".
Definition WEBSITE_KEY_ARN (w : world) : string :=
  scrape w "WebsitePipelineStack" "WebsiteArtifactBucketEncryptionKeyArn".

(** A string with no blank, tab or newline: one word under splitting. *)
Fixpoint no_ifs (s : string) : bool :=
  match s with
  | EmptyString => true
  | String c r => negb (is_ifs c) && no_ifs r
  end.

(** The [Outputs:] section the CDK CLI prints after a deploy: one line
    [Stack.OutputId = value] per output, then an empty line. *)
Definition cdk_outputs_section (stack : string) (outs : list (string * string)) : list string :=
  "Outputs:" :: app (map (fun o => stack ++ "." ++ fst o ++ " = " ++ snd o) outs) [""].

(** A world in which every pipeline deploy prints its [Outputs:] section:
    one key ARN for the two back-end pipelines, the outputs of
    [OutputManager.createOutputs] for the website pipeline. *)
Definition website_outputs : list (string * string) :=
  let l := Config.stageConfigurationList "222222222222" "333333333333" in
  let d := Config.mkStageConfig "" "" "" false None in
  Pipeline.createOutputs "arn:aws:kms:us-west-2:111111111111:key/website"
    "arn:aws:s3:::website-artifacts"
    (Pipeline.accountConfig (App.websiteEntry (nth 0 l d)))
    (Pipeline.accountConfig (App.websiteEntry (nth 1 l d))).

Definition keyed_world : world :=
  mkWorld (fun stack =>
             if String.eqb stack "WebsitePipelineStack" then
               "Deploying WebsitePipelineStack" :: cdk_outputs_section stack website_outputs
             else cdk_outputs_section stack
                    [("KeyArn", "arn:aws:kms:us-west-2:111111111111:key/" ++ stack)])
          (fun _ => "") (fun _ => 0%Z).

(** *** [scripts/automate_cleanup.sh]

    [cmd &] starts a background job: the job's own status is not observed
    and [$?] becomes 0. *)
Definition bg (line : nat) (argv : list string) : M :=
  fun s => Running (mkSt (trace s ++ [ECmd line argv]) 0).

Definition delete_stack (stack profile : string) : list string :=
  ["aws"; "cloudformation"; "delete-stack"; "--stack-name"; stack; "--profile"; profile].

Definition automate_cleanup (e : env) (w : world) : M :=
  let PIPELINE_ACCOUNT_ID := expand e "PIPELINE_ACCOUNT_ID" in
  (* lines 10-14; inside the branch [${PIPELINE_ACCOUNT_ID}] is empty and
     expands to no argument *)
  if_ (is_empty PIPELINE_ACCOUNT_ID)
    (printf 11 "Please set PIPELINE_ACCOUNT_ID, BETA_ACCOUNT_ID, and PROD_ACCOUNT_ID" ;;
     printf 12 "PIPELINE_ACCOUNT_ID =" ;;
     exit_) ;;
  bg 17 (delete_stack "BetaApplicationDeploymentStack" "beta") ;;
  bg 18 (delete_stack "ProdApplicationDeploymentStack" "prod") ;;
  run w 21 (["aws"; "s3"; "rm"] ++ word_split ("s3://artifact-bucket-" ++ PIPELINE_ACCOUNT_ID)
            ++ ["--recursive"; "--profile"; "pipeline"]) ;;
  run w 24 ["cdk"; "destroy"; "CrossAccountPipelineStack"; "--profile"; "pipeline"] ;;
  bg 27 (delete_stack "CodePipelineCrossAccountRole" "beta") ;;
  bg 28 (delete_stack "CodePipelineCrossAccountRole" "prod") ;;
  bg 29 (delete_stack "CloudFormationDeploymentRole" "beta") ;;
  bg 30 (delete_stack "CloudFormationDeploymentRole" "prod") ;;
  run w 33 ["cdk"; "destroy"; "RepositoryStack"; "--profile"; "pipeline"].

Definition run_cleanup (e : env) (w : world) : res :=
  match automate_cleanup e w (mkSt [] 0) with
  | Running s => Exited s (status s)
  | r => r
  end.

(** *** What the two scripts act on *)

(** The value following the first occurrence of a flag. *)
Fixpoint flag_value (flag : string) (argv : list string) : option string :=
  match argv with
  | a :: (b :: _) as r => if String.eqb a flag then Some b else flag_value flag r
  | _ => None
  end.

(** The (stack, profile) an [aws cloudformation <verb>] command acts on. *)
Definition cfn_target (verb : string) (argv : list string) : option (string * string) :=
  match argv with
  | "aws" :: "cloudformation" :: v :: rest =>
      if String.eqb v verb then
        match flag_value "--stack-name" rest, flag_value "--profile" rest with
        | Some st, Some p => Some (st, p)
        | _, _ => None
        end
      else None
  | _ => None
  end.

(** The stack of an [npx cdk deploy] / [cdk destroy] command. *)
Definition cdk_target (verb : string) (argv : list string) : option string :=
  match argv with
  | "npx" :: "cdk" :: v :: st :: _ => if String.eqb v verb then Some st else None
  | "cdk" :: v :: st :: _ => if String.eqb v verb then Some st else None
  | _ => None
  end.

Definition event_argv (ev : event) : list string :=
  match ev with ECmd _ argv => argv | EPrint _ _ => [] end.

Definition targets {A} (f : list string -> option A) (tr : list event) : list A :=
  flat_map (fun ev => match f (event_argv ev) with Some t => [t] | None => [] end) tr.

End Script.

(** * Properties *)

Import Str Naming Config App.

(** ** String lemmas *)

Lemma count_char_append c s t :
  count_char c (s ++ t) = count_char c s + count_char c t.
Proof.
  induction s as [|d s IH]; simpl; [reflexivity|].
  rewrite IH. lia.
Qed.

Lemma count_hyphen_removeHyphens s :
  count_char "-"%char (removeHyphens s) = 0.
Proof.
  induction s as [|c s IH]; cbn [removeHyphens]; [reflexivity|].
  destruct (Ascii.eqb c "-") eqn:E; [exact IH|].
  cbn [count_char]. rewrite Ascii.eqb_sym, E. exact IH.
Qed.

Lemma removeHyphens_list s :
  list_ascii_of_string (removeHyphens s) = non_hyphens s.
Proof.
  induction s as [|c s IH]; simpl; [reflexivity|].
  destruct (Ascii.eqb c "-"); simpl; congruence.
Qed.

Lemma prefix_append s t : String.prefix s (s ++ t) = true.
Proof.
  induction s as [|c s IH]; simpl; [destruct t; reflexivity|].
  destruct (ascii_dec c c) as [_|n]; [exact IH|contradiction n; reflexivity].
Qed.

Lemma contains_eq needle s :
  contains needle s =
  if String.prefix needle s then true
  else match s with EmptyString => false | String _ r => contains needle r end.
Proof. destruct s; reflexivity. Qed.

Lemma contains_app_r needle a b : contains needle b = true -> contains needle (a ++ b) = true.
Proof.
  intros Hb. induction a as [|c a IH]; [exact Hb|].
  change (String c a ++ b) with (String c (a ++ b)).
  rewrite contains_eq. destruct (String.prefix needle (String c (a ++ b))); [reflexivity|exact IH].
Qed.

Lemma contains_here needle b : contains needle (needle ++ b) = true.
Proof. rewrite contains_eq, prefix_append. reflexivity. Qed.

Lemma contains_middle needle a b : contains needle (a ++ needle ++ b) = true.
Proof. apply contains_app_r, contains_here. Qed.

Lemma length_toLowerCase s : String.length (toLowerCase s) = String.length s.
Proof. induction s as [|c s IH]; simpl; congruence. Qed.

Lemma length_append s t : String.length (s ++ t) = String.length s + String.length t.
Proof. induction s as [|c s IH]; simpl; congruence. Qed.

Lemma subdomain_neq s d : toLowerCase s ++ "." ++ d <> d.
Proof.
  intros H. apply (f_equal String.length) in H.
  rewrite length_append in H. simpl in H. lia.
Qed.

(** ** C4: the literal stack names of the spec *)

(** C4: [createServiceStackName] gives [Betauswest2ServiceStack] and
    [Produswest2ServiceStack] for the two stages in [us-west-2], and
    [createDeviceFarmStackName "Beta" "us-west-2" "FrontEnd"] is
    [FrontEndBetauswest2DeviceFarmStack]. *)
Theorem stack_name_literals :
  createServiceStackName "Beta" "us-west-2" = "Betauswest2ServiceStack" /\
  createServiceStackName "Prod" "us-west-2" = "Produswest2ServiceStack" /\
  createDeviceFarmStackName "Beta" "us-west-2" "FrontEnd" = "FrontEndBetauswest2DeviceFarmStack".
Proof. repeat split; reflexivity. Qed.

(** ** C3: positional layout of the stage table *)

(** C3: index 0 of [stageConfigurationList] is the Beta record (not prod)
    and index 1 the Prod record (prod); the website, front-end and back-end
    lists that [app.ts] hands to the pipeline stacks keep that order, so
    [stacksToDeploy[0]] carries the Beta record and [stacksToDeploy[1]] the
    Prod record, whatever the account ids. *)
Theorem stage_list_positional (betaAccountId prodAccountId : string) :
  let L := stageConfigurationList betaAccountId prodAccountId in
  exists r0 r1,
    at_index L 0 = Some r0 /\ stage r0 = "Beta" /\ isProd r0 = false /\
    at_index L 1 = Some r1 /\ stage r1 = "Prod" /\ isProd r1 = true /\
    length L = 2 /\
    (let '(b, p) := positionalConfigs (websiteServiceStackList L) in
     option_map wconfig b = Some r0 /\ option_map wconfig p = Some r1) /\
    (let '(b, p) := positionalConfigs (frontendServiceStackList L) in
     option_map fconfig b = Some r0 /\ option_map fconfig p = Some r1) /\
    (let '(b, p) := positionalConfigs (backendServiceStackList L) in
     option_map aconfig b = Some r0 /\ option_map aconfig p = Some r1).
Proof.
  intros L. do 2 eexists.
  repeat split; reflexivity.
Qed.

(** ** C5: stack names are collision-free over the stage table *)

(** C5: for any two records of [stageConfigurationList] and any two resource
    kinds (service, VPC, device farm, deployment bucket, website bucket,
    domain config, contact form, with the extra arguments [app.ts] passes),
    distinct (stage, region, kind) tuples get distinct stack names. *)
Theorem stack_names_collision_free (betaAccountId prodAccountId : string)
  (r1 r2 : StageConfig) (k1 k2 : resourceKind)
  (H1 : In r1 (stageConfigurationList betaAccountId prodAccountId))
  (H2 : In r2 (stageConfigurationList betaAccountId prodAccountId))
  (Hd : (stage r1, region r1, k1) <> (stage r2, region r2, k2)) :
  appStackName (stage r1) (region r1) k1 <> appStackName (stage r2) (region r2) k2.
Proof.
  simpl in H1, H2.
  destruct H1 as [<-|[<-|[]]]; destruct H2 as [<-|[<-|[]]];
    destruct k1, k2;
    try (exfalso; apply Hd; reflexivity);
    vm_compute; intro H; discriminate H.
Qed.

Lemma stack_names_collision_free_witness :
  let L := stageConfigurationList "111111111111" "222222222222" in
  (In (nth 0 L (nth 1 L (mkStageConfig "" "" "" false None))) L /\
   In (nth 1 L (mkStageConfig "" "" "" false None)) L) /\
  appStackName "Beta" "us-west-2" KContactForm <> appStackName "Prod" "us-west-2" KContactForm.
Proof.
  split.
  - split; simpl; auto.
  - apply (stack_names_collision_free "111111111111" "222222222222"
             (nth 0 (stageConfigurationList "111111111111" "222222222222")
                (mkStageConfig "" "" "" false None))
             (nth 1 (stageConfigurationList "111111111111" "222222222222")
                (mkStageConfig "" "" "" false None))
             KContactForm KContactForm).
    + simpl; auto.
    + simpl; auto.
    + vm_compute. intro H; discriminate H.
Defined.

(** ** C6: which helpers strip the hyphens of the region *)

(** C6: the service, VPC, device-farm, deployment-bucket and contact-form
    names contain no hyphen from the region (their hyphens are those of the
    stage and account only) and contain the region with its hyphens removed;
    the website-bucket and domain-config names contain the region verbatim,
    all its hyphens included. *)
Theorem region_hyphen_handling (stage region account prefix domain : string) :
  count_char "-" (createServiceStackName stage region) = count_char "-" stage /\
  count_char "-" (createVpcStackName stage region account)
    = count_char "-" account + count_char "-" stage /\
  count_char "-" (createDeviceFarmStackName stage region account)
    = count_char "-" account + count_char "-" stage /\
  count_char "-" (createDeploymentBucketStackName stage region account)
    = count_char "-" account + count_char "-" stage /\
  count_char "-" (createContactFormStackName stage region) = count_char "-" stage /\
  contains (removeHyphens region) (createServiceStackName stage region) = true /\
  contains (removeHyphens region) (createVpcStackName stage region account) = true /\
  contains (removeHyphens region) (createDeviceFarmStackName stage region account) = true /\
  contains (removeHyphens region) (createDeploymentBucketStackName stage region account) = true /\
  contains (removeHyphens region) (createContactFormStackName stage region) = true /\
  count_char "-" (createWebsiteBucketStackName stage region prefix)
    = count_char "-" prefix + count_char "-" stage + count_char "-" region /\
  count_char "-" (createDomainConfigStackName stage region prefix domain)
    = count_char "-" prefix + count_char "-" stage + count_char "-" region
      + count_char "-" domain /\
  contains region (createWebsiteBucketStackName stage region prefix) = true /\
  contains region (createDomainConfigStackName stage region prefix domain) = true.
Proof.
  unfold createServiceStackName, createVpcStackName, createDeviceFarmStackName,
    createDeploymentBucketStackName, createContactFormStackName,
    createWebsiteBucketStackName, createDomainConfigStackName.
  repeat split;
    try (repeat rewrite count_char_append; rewrite ?count_hyphen_removeHyphens;
         simpl; lia);
    first [ apply contains_middle
          | apply contains_app_r; apply contains_middle ].
Qed.

(** ** C1, C2: the bootstrap script *)

Section Bootstrap.
Import Script.

(** Guard of lines 10-16 fails: four [printf]s, then [exit] with the status
    of the last one; no external command runs. *)
Lemma guard_exit (e : env) (w : world)
  (Hg : (is_empty (expand e "PIPELINE_ACCOUNT_ID") || is_empty (expand e "BETA_ACCOUNT_ID")
         || is_empty (expand e "PROD_ACCOUNT_ID")) = true) :
  run_script e w =
  Exited (mkSt
    [EPrint 11 "Please set PIPELINE_ACCOUNT_ID, BETA_ACCOUNT_ID, and PROD_ACCOUNT_ID\n";
     EPrint 12 ("PIPELINE_ACCOUNT_ID = " ++ expand e "PIPELINE_ACCOUNT_ID" ++ "\n");
     EPrint 13 ("BETA_ACCOUNT_ID = " ++ expand e "BETA_ACCOUNT_ID" ++ "\n");
     EPrint 14 ("PROD_ACCOUNT_ID = " ++ expand e "PROD_ACCOUNT_ID" ++ "\n")]
    (printf_status ("PROD_ACCOUNT_ID = " ++ expand e "PROD_ACCOUNT_ID" ++ "\n")))
    (printf_status ("PROD_ACCOUNT_ID = " ++ expand e "PROD_ACCOUNT_ID" ++ "\n")).
Proof.
  unfold run_script, automate_deployment. cbv zeta.
  unfold seq at 1, if_ at 1. rewrite Hg. reflexivity.
Qed.

(** C1 (code evaluated at the failing input): with the three variables
    unset, the script prints its message and leaves through [exit] with
    status 0, having run no external command. *)
Theorem unset_accounts_exit_status_zero (w : world) :
  run_script (fun _ => None) w =
  Exited (mkSt
    [EPrint 11 "Please set PIPELINE_ACCOUNT_ID, BETA_ACCOUNT_ID, and PROD_ACCOUNT_ID\n";
     EPrint 12 "PIPELINE_ACCOUNT_ID = \n";
     EPrint 13 "BETA_ACCOUNT_ID = \n";
     EPrint 14 "PROD_ACCOUNT_ID = \n"] 0) 0 /\
  existsb is_cmd (outcome_trace (run_script (fun _ => None) w)) = false.
Proof.
  rewrite (guard_exit (fun _ => None) w eq_refl). split; reflexivity.
Qed.

(** C2: whenever the [KeyArn] value scraped from the output of the
    [PipelineDeploymentStack] deploy is empty, the script exits without
    running any of the role-patching deploys of lines 111-133: every
    recorded step lies at or before the [KEY_ARN] check of lines 68-71. *)
Theorem empty_key_arn_stops_before_role_patching (e : env) (w : world)
  (Hk : scrape w "PipelineDeploymentStack" "KeyArn" = "") :
  exists s c, run_script e w = Exited s c /\
    existsb is_role_patch (trace s) = false /\
    forallb (fun ev => Nat.leb (event_line ev) 70) (trace s) = true.
Proof.
  unfold run_script, automate_deployment. cbv zeta. rewrite Hk.
  destruct (is_empty (expand e "PIPELINE_ACCOUNT_ID") || is_empty (expand e "BETA_ACCOUNT_ID")
            || is_empty (expand e "PROD_ACCOUNT_ID")) eqn:G.
  - unfold seq at 1, if_ at 1. cbn. eexists _, _. split; [reflexivity|].
    split; reflexivity.
  - unfold seq at 1, if_ at 1. cbn. eexists _, _. split; [reflexivity|].
    split; reflexivity.
Qed.

Lemma empty_key_arn_stops_before_role_patching_witness :
  scrape silent_world "PipelineDeploymentStack" "KeyArn" = "" /\
  exists s c, run_script accounts_set silent_world = Exited s c /\
    existsb is_role_patch (trace s) = false /\
    forallb (fun ev => Nat.leb (event_line ev) 70) (trace s) = true.
Proof.
  split.
  - vm_compute. reflexivity.
  - apply (empty_key_arn_stops_before_role_patching accounts_set silent_world).
    vm_compute. reflexivity.
Defined.

End Bootstrap.

(** ** C7, C8: the website pipeline's stages *)

Section WebsitePipeline.
Import Pipeline.

Variables betaAccountId prodAccountId : string.

Let stacks := websiteServiceStackList (stageConfigurationList betaAccountId prodAccountId).

(** C7 (amended): the stages are, in order, Source, Build, Pipeline_Update,
    Deploy_Beta, Manual_Approval, Deploy_Prod; the Manual_Approval stage
    holds a single manual approval, and the human gates between the beta
    deployment and the prod deployment are two: Deploy_Beta's
    ManualCacheInvalidation approval (runOrder 6, after all its automated
    actions) and the Manual_Approval stage's Approve action. *)
Theorem website_pipeline_stage_order :
  exists ss, WebsitePipelineStack stacks = Some ss /\
    stageNames ss =
      ["Source"; "Build"; "Pipeline_Update"; "Deploy_Beta"; "Manual_Approval"; "Deploy_Prod"] /\
    map (fun a => (actionName a, kind a)) (actions (nth 4 ss createSourceStage))
      = [("Approve", ManualApproval)] /\
    humanGatesBetweenBetaAndProd ss =
      [("Deploy_Beta", "ManualCacheInvalidation"); ("Manual_Approval", "Approve")].
Proof. eexists. repeat split; reflexivity. Qed.

(** C8: Deploy_Beta runs, with runOrder 1 to 6, the asset publishing, the
    website-bucket, domain-config and contact-form stack deploys, the
    website content deploy and the manual cache-invalidation approval, all
    bound to the beta account; Deploy_Prod runs the same six actions with
    the same runOrders, bound to the prod account (its publishing project,
    its cross-account and deployment roles, its bucket). *)
Theorem deploy_stages_run_orders :
  exists ss, WebsitePipelineStack stacks = Some ss /\
  map actionShape (actions (nth 3 ss createSourceStage)) =
   [ ("PublishAssets", CodeBuild, Some 1, None, None, Some betaAccountId, None);
     ("DeployWebsiteBucket", CfnCreateUpdateStack, Some 2,
        Some (cpRole betaAccountId), Some (cfRole betaAccountId), None, None);
     ("DeployBetaDomainConfig", CfnCreateUpdateStack, Some 3,
        Some (cpRole betaAccountId), Some (cfRole betaAccountId), None, None);
     ("DeployBetaContactForm", CfnCreateUpdateStack, Some 4,
        Some (cpRole betaAccountId), Some (cfRole betaAccountId), None, None);
     ("DeployWebsiteContent", S3Deploy, Some 5, Some (cpRole betaAccountId), None, None,
        Some ("website-beta-" ++ betaAccountId ++ "-us-west-2"));
     ("ManualCacheInvalidation", ManualApproval, Some 6, None, None, None, None) ] /\
  map actionShape (actions (nth 5 ss createSourceStage)) =
   [ ("PublishAssets", CodeBuild, Some 1, None, None, Some prodAccountId, None);
     ("DeployWebsiteBucket", CfnCreateUpdateStack, Some 2,
        Some (cpRole prodAccountId), Some (cfRole prodAccountId), None, None);
     ("DeployProdDomainConfig", CfnCreateUpdateStack, Some 3,
        Some (cpRole prodAccountId), Some (cfRole prodAccountId), None, None);
     ("DeployProdContactForm", CfnCreateUpdateStack, Some 4,
        Some (cpRole prodAccountId), Some (cfRole prodAccountId), None, None);
     ("DeployWebsiteContent", S3Deploy, Some 5, Some (cpRole prodAccountId), None, None,
        Some ("arn:aws:s3:::website-prod-" ++ prodAccountId ++ "-us-west-2"));
     ("ManualCacheInvalidation", ManualApproval, Some 6, None, None, None, None) ] /\
  map (fun a => (kind a, runOrder a)) (actions (nth 3 ss createSourceStage)) =
  map (fun a => (kind a, runOrder a)) (actions (nth 5 ss createSourceStage)) /\
  stageName (nth 3 ss createSourceStage) = "Deploy_Beta" /\
  stageName (nth 5 ss createSourceStage) = "Deploy_Prod".
Proof. eexists. repeat split; reflexivity. Qed.

End WebsitePipeline.

(** C7 counterexample: at concrete account ids, the human gates between the
    beta and prod deployments are not the Manual_Approval stage alone. *)
Lemma manual_approval_not_only_gate :
  ~ exists ss,
      Pipeline.WebsitePipelineStack
        (websiteServiceStackList (stageConfigurationList "222222222222" "333333333333"))
      = Some ss /\ Pipeline.only_gate_is_manual_approval ss.
Proof.
  intros [ss [H G]]. vm_compute in H. injection H as <-.
  revert G. unfold Pipeline.only_gate_is_manual_approval. vm_compute. intro E; discriminate E.
Qed.

(** ** String and list lemmas *)

Lemma append_nil_r s : (s ++ "")%string = s.
Proof. induction s as [|c s IH]; simpl; congruence. Qed.

Lemma append_assoc_str a b c : ((a ++ b) ++ c)%string = (a ++ b ++ c)%string.
Proof. induction a as [|x a IH]; simpl; congruence. Qed.

Lemma append_cancel_l p s t : (p ++ s)%string = (p ++ t)%string -> s = t.
Proof. induction p as [|c p IH]; simpl; [auto|]. intros H. injection H. exact IH. Qed.

Lemma append_inv_len a b s t :
  (a ++ s)%string = (b ++ t)%string -> String.length s = String.length t -> a = b /\ s = t.
Proof.
  revert b. induction a as [|c a IH]; intros [|d b] H L; simpl in H.
  - auto.
  - subst s. simpl in L. rewrite length_append in L. lia.
  - subst t. simpl in L. rewrite length_append in L. lia.
  - injection H as -> H. destruct (IH b H L) as [-> ->]. auto.
Qed.

Lemma In_eqb x l : In x l <-> existsb (String.eqb x) l = true.
Proof.
  rewrite existsb_exists. split.
  - intros H. exists x. split; [exact H|apply String.eqb_refl].
  - intros [y [H E]]. apply String.eqb_eq in E. subst y. exact H.
Qed.

Lemma nodupb_NoDup l : Str.nodupb l = true -> NoDup l.
Proof.
  induction l as [|x r IH]; simpl; intros H; constructor.
  - apply andb_prop in H as [H _]. rewrite In_eqb. destruct (existsb _ r); [discriminate|auto].
  - apply andb_prop in H as [_ H]. auto.
Qed.

Lemma formatDomainName_eqb d s :
  String.eqb (Domain.formatDomainName d s) d = String.eqb s Config.STAGES_PROD.
Proof.
  unfold Domain.formatDomainName. destruct (String.eqb s Config.STAGES_PROD).
  - apply String.eqb_refl.
  - apply String.eqb_neq, subdomain_neq.
Qed.

(** Case analysis of the DomainConfigurationStack constructor on the
    stage label and the [deployDistribution] flag. *)
Ltac dcs_cases p :=
  unfold Domain.DomainConfigurationStack, Domain.createDnsRecords, Domain.getCertificate,
    Domain.createCloudFrontFunctions, Domain.createOutputs, Domain.createSubdomainDelegation,
    Domain.createHostedZoneOutputs, Domain.createEmailRecords, Domain.effectiveDeploy;
  cbv zeta; rewrite ?formatDomainName_eqb;
  destruct (String.eqb_spec (Domain.stageName p) Config.STAGES_PROD) as [E1|E1];
  destruct (String.eqb_spec (Domain.stageName p) Config.STAGES_BETA) as [E2|E2];
  [ exfalso; rewrite E1 in E2; discriminate E2 | | | ];
  destruct (Domain.deployDistribution p) as [[]|];
  unfold Config.STAGES_PROD, Config.STAGES_BETA in *.

(** ** C9, C10: stage-label branching in the website resource stacks *)

Section ResourceStacks.
Import Domain ContactForm.

(** C9 counterexample: two Prod stacks that differ only in the
    [deployDistribution] flag create different constructs (the one with the
    flag off skips the distribution). *)
Lemma deploy_flag_changes_constructs : ~ constructs_decided_by_stage.
Proof.
  intros H.
  specialize (H (mkDomainProps "Prod" "qandmedating.com" "b" "c" None (Some false))
                (mkDomainProps "Prod" "qandmedating.com" "b" "c" None None) eq_refl).
  vm_compute in H. discriminate H.
Qed.




(** C9 (amended): the DomainConfigurationStack creates the beta NS
    delegation record exactly when the stage is Prod, and the ContactForm
    table is RETAIN exactly when the stage is Prod (DESTROY otherwise); the
    constructs of the DomainConfigurationStack are decided by the stage
    label together with the [deployDistribution] flag, which counts for the
    Prod stage only: a Prod stack with the flag false skips the
    distribution and outputs [DistributionStatus] instead, while an unset
    flag deploys it. *)
Theorem stage_label_branching (p1 p2 : DomainConfigurationStackProps)
  (Hs : Domain.stageName p1 = Domain.stageName p2)
  (Hf : Domain.stageName p1 <> STAGES_PROD \/ effectiveDeploy p1 = effectiveDeploy p2) :
  (In "BetaSubdomainDelegation" (DomainConfigurationStack p1) <->
     Domain.stageName p1 = "Prod") /\
  (forall s, removalPolicy (contactTable s) = RETAIN <-> s = "Prod") /\
  (forall s, s <> "Prod" -> removalPolicy (contactTable s) = DESTROY) /\
  (In "WebsiteDistribution" (DomainConfigurationStack p1) <->
     ~ (Domain.stageName p1 = "Prod" /\ deployDistribution p1 = Some false)) /\
  (In "DistributionStatus" (DomainConfigurationStack p1) <->
     Domain.stageName p1 = "Prod" /\ deployDistribution p1 = Some false) /\
  DomainConfigurationStack p1 = DomainConfigurationStack p2.
Proof.
  split; [|split; [|split; [|split; [|split]]]].
  - unfold DomainConfigurationStack, createSubdomainDelegation.
    destruct (String.eqb (Domain.stageName p1) STAGES_PROD) eqn:E.
    + apply String.eqb_eq in E. split; [intros _; exact E|intros _; simpl; auto].
    + split; [|intros F; apply String.eqb_neq in E; contradiction].
      intros HI. exfalso.
      unfold getCertificate, createCloudFrontFunctions, createDnsRecords, createOutputs,
        createHostedZoneOutputs, createEmailRecords in HI.
      rewrite formatDomainName_eqb, E in HI.
      destruct (String.eqb (Domain.stageName p1) STAGES_BETA);
        destruct (deployDistribution p1) as [[]|]; simpl in HI;
        repeat (destruct HI as [HI|HI]; [discriminate HI|]); exact HI.
  - intros s. unfold contactTable. simpl.
    destruct (String.eqb s "Prod") eqn:E.
    + apply String.eqb_eq in E. split; auto.
    + apply String.eqb_neq in E. split; [discriminate|contradiction].
  - intros s Hn. unfold contactTable. simpl.
    apply String.eqb_neq in Hn. rewrite Hn. reflexivity.
  - rewrite In_eqb. dcs_cases p1; cbn; intuition congruence.
  - rewrite In_eqb. dcs_cases p1; cbn; intuition congruence.
  - unfold DomainConfigurationStack, createDnsRecords. cbv zeta.
    rewrite !formatDomainName_eqb, <- Hs.
    destruct (String.eqb (Domain.stageName p1) STAGES_PROD) eqn:E; simpl; [|reflexivity].
    apply String.eqb_eq in E. destruct Hf as [Hf|Hf]; [contradiction|].
    unfold effectiveDeploy in Hf. rewrite Hf. reflexivity.
Qed.

Lemma stage_label_branching_witness :
  (Domain.stageName (mkDomainProps "Prod" "qandmedating.com" "b" "c" None (Some true))
   = Domain.stageName (mkDomainProps "Prod" "qandmedating.com" "b" "c" None None) /\
   (Domain.stageName (mkDomainProps "Prod" "qandmedating.com" "b" "c" None (Some true))
      <> STAGES_PROD \/
    effectiveDeploy (mkDomainProps "Prod" "qandmedating.com" "b" "c" None (Some true))
    = effectiveDeploy (mkDomainProps "Prod" "qandmedating.com" "b" "c" None None))) /\
  DomainConfigurationStack (mkDomainProps "Prod" "qandmedating.com" "b" "c" None (Some true))
  = DomainConfigurationStack (mkDomainProps "Prod" "qandmedating.com" "b" "c" None None).
Proof.
  split.
  - split; [reflexivity|right; reflexivity].
  - destruct (stage_label_branching
                (mkDomainProps "Prod" "qandmedating.com" "b" "c" None (Some true))
                (mkDomainProps "Prod" "qandmedating.com" "b" "c" None None)
                eq_refl (or_intror eq_refl)) as [_ [_ [_ [_ [_ E]]]]].
    exact E.
Defined.

(** C10: [formatDomainName d s] is [d] when the stage is Prod and
    [toLowerCase s ++ "." ++ d] otherwise; for Beta it is ["beta." ++ d]. *)
Theorem formatDomainName_spec (d s : string) :
  ((s = "Prod" /\ formatDomainName d s = d) \/
   (s <> "Prod" /\ formatDomainName d s = toLowerCase s ++ "." ++ d)) /\
  formatDomainName d "Beta" = "beta." ++ d.
Proof.
  split; [|reflexivity].
  unfold formatDomainName. destruct (String.eqb s STAGES_PROD) eqn:E.
  - left. apply String.eqb_eq in E. auto.
  - right. apply String.eqb_neq in E. auto.
Qed.

End ResourceStacks.

(** * Further properties of the code *)

(** ** [dotsToHyphens] *)

(** [DOMAIN_NAME.replace(/\./g, '-')] keeps the length, leaves no dot and
    turns each dot into a hyphen. *)
Theorem dotsToHyphens_spec (s : string) :
  String.length (dotsToHyphens s) = String.length s /\
  count_char "." (dotsToHyphens s) = 0 /\
  count_char "-" (dotsToHyphens s) = count_char "-" s + count_char "." s.
Proof.
  induction s as [|c s [IH1 [IH2 IH3]]]; [repeat split|].
  cbn [dotsToHyphens String.length count_char].
  destruct (Ascii.eqb c ".") eqn:E.
  - apply Ascii.eqb_eq in E. subst c. cbn. rewrite IH1, IH2, IH3. lia.
  - rewrite (Ascii.eqb_sym "." c), E. rewrite IH1, IH2, IH3.
    destruct (Ascii.eqb "-" c); lia.
Qed.

(** ** [DomainConfigurationStack] *)

Section DomainExtras.
Import Domain.


(** The basic-auth viewer function, the imported certificate and the
    credentials output are created exactly for the Beta stage, whatever
    the other properties. *)
Theorem beta_only_constructs (p : DomainConfigurationStackProps) :
  (In "BasicAuthFunction" (DomainConfigurationStack p) <-> Domain.stageName p = "Beta") /\
  (In "ExistingCertificate" (DomainConfigurationStack p) <-> Domain.stageName p = "Beta") /\
  (In "BetaCredentials" (DomainConfigurationStack p) <-> Domain.stageName p = "Beta").
Proof.
  rewrite !In_eqb. dcs_cases p; cbn; intuition congruence.
Qed.

(** The [www] alias record and the MX and SPF records are created exactly
    for the Prod stage when its distribution is deployed. *)
Theorem prod_only_records (p : DomainConfigurationStackProps) (x : string)
  (Hx : In x ["WwwAliasRecord"; "MxRecords"; "SpfRecord"]) :
  In x (DomainConfigurationStack p) <->
  Domain.stageName p = "Prod" /\ effectiveDeploy p = true.
Proof.
  rewrite In_eqb.
  destruct Hx as [<-|[<-|[<-|[]]]]; dcs_cases p; cbn; intuition congruence.
Qed.

Lemma prod_only_records_witness :
  In "MxRecords" ["WwwAliasRecord"; "MxRecords"; "SpfRecord"] /\
  In "MxRecords" (DomainConfigurationStack (mkDomainProps "Prod" "qandmedating.com" "b" "c" None None)).
Proof.
  split; [simpl; auto|].
  apply (prod_only_records (mkDomainProps "Prod" "qandmedating.com" "b" "c" None None) "MxRecords");
    [simpl; auto|split; reflexivity].
Defined.


(** The hosted zone is always the first construct; the distribution is
    created unless the stage is Prod with [deployDistribution] false, and
    exactly in that case the [DistributionStatus] output replaces it. *)
Theorem distribution_skip (p : DomainConfigurationStackProps) :
  hd "" (DomainConfigurationStack p) = "HostedZone" /\
  (In "WebsiteDistribution" (DomainConfigurationStack p) <->
     ~ (Domain.stageName p = "Prod" /\ effectiveDeploy p = false)) /\
  (In "DistributionStatus" (DomainConfigurationStack p) <->
     Domain.stageName p = "Prod" /\ effectiveDeploy p = false).
Proof.
  split; [reflexivity|].
  rewrite !In_eqb. dcs_cases p; cbn; intuition congruence.
Qed.

(** No construct id is used twice in the stack's scope, for any props. *)
Theorem construct_ids_unique (p : DomainConfigurationStackProps) :
  NoDup (DomainConfigurationStack p).
Proof.
  apply nodupb_NoDup. dcs_cases p; reflexivity.
Qed.

End DomainExtras.

(** ** [ContactFormStack] and [getContactFormApiEndpoint] *)

Section ContactFormExtras.
Import ContactForm.

(** Point-in-time recovery is on exactly for the Prod stage, that is
    exactly when the table is retained; distinct stages get distinct table
    names. *)
Theorem contact_table_settings (s t : string) :
  (pointInTimeRecovery (contactTable s) = true <-> s = "Prod") /\
  (pointInTimeRecovery (contactTable s) = true <-> removalPolicy (contactTable s) = RETAIN) /\
  (tableName (contactTable s) = tableName (contactTable t) -> s = t).
Proof.
  unfold contactTable; cbn [pointInTimeRecovery removalPolicy tableName].
  split; [|split].
  - apply String.eqb_eq.
  - destruct (String.eqb s "Prod"); split; congruence.
  - apply append_cancel_l.
Qed.

(** The three CORS settings of the stack agree: the Lambda's
    [ALLOWED_ORIGINS] is the comma-joined list of the API's preflight
    origins, the integration responses allow the first of them (quoted),
    and [http://localhost:3000] is allowed exactly outside Prod. *)
Theorem cors_settings_agree (s : string) :
  ALLOWED_ORIGINS s = join "," (allowOrigins s) /\
  integrationAllowOrigin s = "'" ++ hd "" (allowOrigins s) ++ "'" /\
  length (allowOrigins s) = 2 /\
  (In "http://localhost:3000" (allowOrigins s) <-> s <> "Prod").
Proof.
  rewrite In_eqb. unfold ALLOWED_ORIGINS, allowOrigins, integrationAllowOrigin.
  destruct (String.eqb_spec s "Prod"); cbn; intuition congruence.
Qed.

(** For each record of the stage table, the first origin the contact API
    admits (and the one its integration responses return) is the URL the
    DomainConfigurationStack that [app.ts] builds for the same record
    serves. *)
Theorem contact_origin_is_site_url (b p BC PC : string) (D : bool) (r : StageConfig)
  (H : In r (stageConfigurationList b p)) :
  let props := AppStacks.domainConfigStackProps BC PC D r in
  hd "" (allowOrigins (stage r))
    = "https://" ++ Domain.formatDomainName (Domain.domainName props) (Domain.stageName props) /\
  integrationAllowOrigin (stage r)
    = "'https://" ++ Domain.formatDomainName (Domain.domainName props) (Domain.stageName props)
      ++ "'".
Proof.
  simpl in H. destruct H as [<-|[<-|[]]]; split; reflexivity.
Qed.

Lemma contact_origin_is_site_url_witness :
  In (nth 0 (stageConfigurationList "111111111111" "222222222222")
        (mkStageConfig "" "" "" false None))
     (stageConfigurationList "111111111111" "222222222222") /\
  hd "" (allowOrigins "Beta") = "https://beta.qandmedating.com".
Proof.
  split; [simpl; auto|].
  exact (proj1 (contact_origin_is_site_url "111111111111" "222222222222" "c" "c" true
                  (nth 0 (stageConfigurationList "111111111111" "222222222222")
                     (mkStageConfig "" "" "" false None))
                  (or_introl eq_refl))).
Defined.

(** [getContactFormApiEndpoint] returns the beta endpoint exactly for the
    label [Beta] (so not for [beta]), and the prod endpoint for every other
    label. *)
Theorem contact_endpoint_stage (s : string) :
  (getContactFormApiEndpoint s
     = "https://api-endpoint-for-beta.execute-api.us-west-2.amazonaws.com/prod/contact"
   <-> s = "Beta") /\
  (s <> "Beta" -> getContactFormApiEndpoint s
     = "https://api-endpoint-for-prod.execute-api.us-west-2.amazonaws.com/prod/contact").
Proof.
  unfold getContactFormApiEndpoint, STAGES_BETA.
  destruct (String.eqb_spec s "Beta"); intuition congruence.
Qed.

(** *** The Lambda handler *)

Lemma length_put it t : length (put it t) <= S (length t).
Proof.
  unfold put. destruct (existsb (same_key it) t).
  - rewrite length_map. lia.
  - rewrite length_app. simpl. lia.
Qed.

Lemma put_valid it t :
  forallb valid_item t = true -> valid_item it = true -> forallb valid_item (put it t) = true.
Proof.
  intros Ht Hi. rewrite forallb_forall in Ht |- *. unfold put.
  destruct (existsb (same_key it) t); intros x Hx.
  - apply in_map_iff in Hx as [y [<- Hy]]. destruct (same_key it y); auto.
  - apply in_app_or in Hx as [Hx|[<-|[]]]; auto.
Qed.

Ltac handler_cases :=
  unfold handler;
  repeat match goal with
         | |- context [if ?c then _ else _] => destruct c eqn:?
         | |- context [match body ?e with _ => _ end] => destruct (body e) eqn:?
         end.

(** Every outcome of the handler: the table is left as it is, or the
    request is not a preflight, the answer is 200 and one item is put,
    stamped with the current time and its date, with a non-empty email and
    subject and, unless it is a waitlist registration, a name and message. *)
Lemma handler_outcome scanCount now stage ev t :
  let r := handler scanCount now stage ev t in
  snd r = t \/
  (statusCode (fst r) = 200 /\ httpMethod ev <> "OPTIONS" /\
   exists it, snd r = put it t /\ timestamp it = now /\ date it = before_T now /\
              valid_item it = true).
Proof.
  unfold handler.
  destruct (String.eqb_spec (httpMethod ev) "OPTIONS") as [Eo|Eo]; [left; reflexivity|].
  destruct (body ev) as [| | |b]; try (left; reflexivity).
  destruct (negb (truthy (email b))) eqn:Ee; [left; reflexivity|].
  destruct (negb (opt_eqb (subject b) "Waitlist Registration") &&
            (negb (truthy (name b)) || negb (truthy (subject b)) || negb (truthy (message b))))
    eqn:Er; [left; reflexivity|].
  destruct (Nat.leb maxItems (scanCount t)); [left; reflexivity|].
  right. split; [reflexivity|]. split; [exact Eo|].
  eexists. split; [reflexivity|]. split; [reflexivity|]. split; [reflexivity|].
  unfold valid_item; cbn [itemEmail itemSubject itemName itemMessage].
  destruct (email b) as [v|]; [|discriminate Ee].
  cbn in Ee |- *. destruct (String.eqb v ""); [discriminate Ee|]. cbn.
  destruct (subject b) as [sj|]; cbn in Er |- *.
  - destruct (String.eqb_spec sj "Waitlist Registration") as [E|Hn]; [rewrite E; reflexivity|].
    destruct (String.eqb sj ""), (truthy (name b)), (truthy (message b)); cbn in Er |- *;
      congruence.
  - destruct (truthy (name b)), (truthy (message b)); cbn in Er; congruence.
Qed.

(** The handler leaves the table unchanged, or answers 200 to a request
    that is not a preflight and puts exactly one item, stamped with the
    current time, whose email and subject are non-empty and which has a name
    and message unless it is a waitlist registration. *)
Theorem handler_writes_only_valid_items scanCount now stage ev t :
  let r := handler scanCount now stage ev t in
  snd r = t \/
  (statusCode (fst r) = 200 /\ httpMethod ev <> "OPTIONS" /\
   exists it, snd r = put it t /\ timestamp it = now /\ date it = before_T now /\
              valid_item it = true).
Proof. exact (handler_outcome scanCount now stage ev t). Qed.

(** Every response, whatever the path (preflight, validation error,
    capacity error, success, exception), carries the stage's whole
    [ALLOWED_ORIGINS] list as its [Access-Control-Allow-Origin] header: a
    comma-separated value with two origins. *)
Theorem handler_cors_header scanCount now stage ev t :
  allowOrigin (fst (handler scanCount now stage ev t)) = ALLOWED_ORIGINS stage /\
  count_char "," (ALLOWED_ORIGINS stage) = 1.
Proof.
  split.
  - handler_cases; reflexivity.
  - unfold ALLOWED_ORIGINS. destruct (String.eqb stage "Prod"); reflexivity.
Qed.

(** When the [COUNT] scan reports the table's size, no sequence of requests
    grows a table of at most [MAX_ITEMS] items beyond [MAX_ITEMS]. *)
Theorem handler_table_bound scanCount stage reqs t
  (Hs : forall tb, scanCount tb = length tb) (Hb : length t <= maxItems) :
  length (serve scanCount stage reqs t) <= maxItems.
Proof.
  unfold serve. revert t Hb. induction reqs as [|[n ev] reqs IH]; intros t Hb; [exact Hb|].
  cbn [fold_left fst snd]. apply IH.
  unfold handler.
  destruct (String.eqb (httpMethod ev) "OPTIONS"); [exact Hb|].
  destruct (body ev) as [| | |b]; try exact Hb.
  destruct (negb (truthy (email b))); [exact Hb|].
  destruct (_ && _); [exact Hb|].
  destruct (Nat.leb maxItems (scanCount t)) eqn:E; [exact Hb|].
  cbn [snd]. rewrite Hs in E. apply Nat.leb_gt in E.
  pose proof (length_put
    {| itemEmail := Pipeline.nullish (email b) ""; timestamp := n; date := before_T n;
       itemName := name b; itemSubject := subject b; itemMessage := message b;
       ipAddress := or_default (sourceIp ev) "unknown" |} t). lia.
Qed.

Lemma handler_table_bound_witness :
  (forall tb, (@length item) tb = length tb) /\ length (@nil item) <= maxItems /\
  length (serve (@length item) "Beta"
            [("2025-01-01T00:00:00Z",
              mkEvent "POST" (JSONObject (mkSubmission (Some "a@b.c") None
                                            (Some "Waitlist Registration") None)) None)] [])
  <= maxItems.
Proof.
  split; [intros; reflexivity|]. split; [apply Nat.le_0_l|].
  apply handler_table_bound; [intros; reflexivity|apply Nat.le_0_l].
Defined.

(** Starting from a table of valid items, every sequence of requests
    leaves only valid items: a non-empty email and subject, and a name and
    message unless the subject is [Waitlist Registration]. *)
Theorem handler_keeps_items_valid scanCount stage reqs t
  (Ht : forallb valid_item t = true) :
  forallb valid_item (serve scanCount stage reqs t) = true.
Proof.
  unfold serve. revert t Ht. induction reqs as [|[n ev] reqs IH]; intros t Ht; [exact Ht|].
  cbn [fold_left fst snd]. apply IH.
  destruct (handler_outcome scanCount n stage ev t) as [E|[_ [_ [it [E [_ [_ V]]]]]]];
    rewrite E; [exact Ht|].
  apply put_valid; assumption.
Qed.

Lemma handler_keeps_items_valid_witness :
  forallb valid_item [] = true /\
  forallb valid_item
    (serve (@length item) "Prod"
       [("2025-01-01T00:00:00Z",
         mkEvent "POST" (JSONObject (mkSubmission (Some "a@b.c") (Some "A") (Some "Hi")
                                       (Some "Hello"))) (Some "1.2.3.4"))] []) = true.
Proof.
  split; [reflexivity|]. apply handler_keeps_items_valid. reflexivity.
Defined.

End ContactFormExtras.

(** ** How [app.ts] wires the website stacks together *)

Section AppWiring.
Import AppStacks.

(** For any stage record, the bucket the [WebsiteDeploymentBucketStack]
    creates, the bucket [app.ts] records for the pipeline (name and ARN)
    and the bucket the DomainConfigurationStack serves are the same; the
    two branches on [stageIndex] build the same entry. *)
Theorem website_bucket_names_agree (BC PC : string) (D : bool) (c : StageConfig) :
  websiteBucketName (websiteEntry c) = websiteBucketStackBucketName c /\
  websiteBucketArn (websiteEntry c) = "arn:aws:s3:::" ++ websiteBucketStackBucketName c /\
  Domain.bucketName (domainConfigStackProps BC PC D c) = websiteBucketStackBucketName c /\
  wconfig (websiteEntry c) = c.
Proof.
  unfold websiteEntry. destruct (Nat.eqb _ 0); repeat split; reflexivity.
Qed.

(** For each record of the stage table, [app.ts] hands the
    [deployDistribution] flag to the Prod DomainConfigurationStack only:
    the Beta stack always gets its distribution (with basic auth), the Prod
    stack gets it exactly when [DEPLOY_PROD_DISTRIBUTION] is true. *)
Theorem app_domain_distribution (b p BC PC : string) (D : bool) (r : StageConfig)
  (H : In r (stageConfigurationList b p)) :
  let props := domainConfigStackProps BC PC D r in
  Domain.deployDistribution props = (if String.eqb (stage r) "Prod" then Some D else None) /\
  (In "WebsiteDistribution" (Domain.DomainConfigurationStack props) <->
     stage r = "Beta" \/ D = true) /\
  (In "BasicAuthFunction" (Domain.DomainConfigurationStack props) <-> stage r = "Beta").
Proof.
  simpl in H. destruct H as [<-|[<-|[]]]; cbv zeta; rewrite !In_eqb;
    destruct D; split; try reflexivity; vm_compute; intuition congruence.
Qed.

Lemma app_domain_distribution_witness :
  In (nth 1 (stageConfigurationList "111111111111" "222222222222")
        (mkStageConfig "" "" "" false None))
     (stageConfigurationList "111111111111" "222222222222") /\
  ~ In "WebsiteDistribution"
      (Domain.DomainConfigurationStack
         (domainConfigStackProps "b" "p" false
            (nth 1 (stageConfigurationList "111111111111" "222222222222")
               (mkStageConfig "" "" "" false None)))).
Proof.
  split; [simpl; auto|].
  intros Hin.
  destruct (proj1 (proj1 (proj2 (app_domain_distribution "111111111111" "222222222222" "b" "p"
                  false (nth 1 (stageConfigurationList "111111111111" "222222222222")
                           (mkStageConfig "" "" "" false None))
                  (or_intror (or_introl eq_refl))))) Hin) as [E|E];
    discriminate E.
Defined.

(** The hosting buckets of the two stage records have distinct physical
    names, whatever the two account ids are (also when they are equal):
    the lower-cased stage label is part of the name. *)
Theorem website_bucket_names_distinct (b p : string) :
  NoDup (map websiteBucketStackBucketName (stageConfigurationList b p)).
Proof.
  cbn. constructor; [|constructor; [intros []|constructor]].
  intros [H|[]]. discriminate H.
Qed.

End AppWiring.

(** ** [WebsitePipelineStack]: configurations, roles and outputs *)

Section PipelineExtras.
Import Pipeline.

Lemma star_match_true f u : f u = true -> star_match f u = true.
Proof. intros H. destruct u; cbn; rewrite H; reflexivity. Qed.

Lemma iam_match_prefix a t : iam_match (a ++ "*") (a ++ t) = true.
Proof.
  induction a as [|c a IH].
  - cbn. induction t as [|d t IHt]; [reflexivity|]. cbn. rewrite ?IHt, ?orb_true_r. reflexivity.
  - change (String c a ++ "*")%string with (String c (a ++ "*")).
    change (String c a ++ t)%string with (String c (a ++ t)).
    cbn [iam_match].
    destruct (Ascii.eqb c "*") eqn:E1.
    + cbn [star_match]. rewrite (star_match_true _ _ IH). apply orb_true_r.
    + destruct (Ascii.eqb c "?"); [exact IH|]. rewrite Ascii.eqb_refl. exact IH.
Qed.

Lemma iam_match_role acct n :
  iam_match ("arn:aws:iam::" ++ acct ++ ":role/*") ("arn:aws:iam::" ++ acct ++ ":role/" ++ n) = true.
Proof.
  pose proof (iam_match_prefix ("arn:aws:iam::" ++ acct ++ ":role/") n) as H.
  rewrite !append_assoc_str in H. exact H.
Qed.

Lemma pipeline_stage_roles B P r :
  In r (pipelineRoles [createSourceStage; createBuildStage; createPipelineUpdateStage;
                       createBetaDeployStage B; createApprovalStage B; createProdDeployStage P]) ->
  r = codePipeline (roles B) \/ r = cloudFormation (roles B) \/
  r = codePipeline (roles P) \/ r = cloudFormation (roles P).
Proof. cbn. intuition. Qed.

(** Every role ARN the code passes explicitly to an action of the built
    pipeline (the [role] and [deploymentRole] props) is covered by the
    pipeline role's [sts:AssumeRole] resources and is a role principal of
    the artifact key policy. The roles CDK creates for actions given no
    explicit role are outside this statement. *)
Theorem pipeline_explicit_roles_covered (l : list WebsiteStackConfig)
  (bc pc : WebsiteStackConfig) (ss : list stageProps) (r : string)
  (H : positionalConfigs l = (Some bc, Some pc))
  (Hss : WebsitePipelineStack l = Some ss)
  (Hr : In r (pipelineRoles ss)) :
  existsb (fun res => iam_match res r) (assumeRoleResources (accountConfig bc) (accountConfig pc))
    = true /\
  In r (keyRolePrincipals (accountConfig bc) (accountConfig pc)).
Proof.
  unfold WebsitePipelineStack in Hss. rewrite H in Hss. injection Hss as <-.
  apply pipeline_stage_roles in Hr.
  unfold assumeRoleResources, keyRolePrincipals. cbn [existsb].
  destruct Hr as [-> | [-> | [-> | ->]]]; split; cbn [In]; auto;
    unfold accountConfig; cbn [roles codePipeline cloudFormation websiteConfig];
    first [ apply orb_true_intro; left; apply iam_match_role
          | apply orb_true_intro; right; apply orb_true_intro; left; apply iam_match_role ].
Qed.

Lemma pipeline_explicit_roles_covered_witness :
  exists bc pc ss,
    positionalConfigs (websiteServiceStackList (stageConfigurationList "222222222222" "333333333333")) = (Some bc, Some pc) /\
    WebsitePipelineStack (websiteServiceStackList (stageConfigurationList "222222222222" "333333333333")) = Some ss /\
    In (cpRole "333333333333") (pipelineRoles ss) /\
    In (cpRole "333333333333") (keyRolePrincipals (accountConfig bc) (accountConfig pc)).
Proof.
  do 3 eexists. split; [reflexivity|]. split; [reflexivity|].
  split; [vm_compute; intuition|].
  apply (proj2 (pipeline_explicit_roles_covered (websiteServiceStackList (stageConfigurationList "222222222222" "333333333333")) _ _ _
                  (cpRole "333333333333") eq_refl eq_refl ltac:(vm_compute; intuition))).
Defined.

Lemma cpRole_inj x y : cpRole x = cpRole y -> x = y.
Proof.
  unfold cpRole. intros H. apply append_cancel_l in H.
  apply (append_inv_len _ _ _ _ H eq_refl).
Qed.

Lemma cfRole_inj x y : cfRole x = cfRole y -> x = y.
Proof.
  unfold cfRole. intros H. apply append_cancel_l in H.
  apply (append_inv_len _ _ _ _ H eq_refl).
Qed.

Lemma cpRole_cfRole x y : cpRole x <> cfRole y.
Proof.
  unfold cpRole, cfRole. intros H. apply append_cancel_l in H.
  destruct (append_inv_len _ _ _ _ H eq_refl) as [_ E]. discriminate E.
Qed.








(** The website URLs the pipeline stack outputs are the URLs of the
    domains the DomainConfigurationStacks of the same records serve:
    [BetaWebsiteUrl] for [stacksToDeploy[0]] and [ProdWebsiteUrl] for
    [stacksToDeploy[1]]. *)
Theorem website_urls_match_domain_stacks (b p keyArn bucketArn BC PC : string) (D : bool) :
  exists bc pc,
    positionalConfigs (websiteServiceStackList (stageConfigurationList b p)) = (Some bc, Some pc) /\
    let outs := createOutputs keyArn bucketArn (accountConfig bc) (accountConfig pc) in
    let betaProps := AppStacks.domainConfigStackProps BC PC D (wconfig bc) in
    let prodProps := AppStacks.domainConfigStackProps BC PC D (wconfig pc) in
    output_value "BetaWebsiteUrl" outs =
      Some ("https://" ++ Domain.formatDomainName (Domain.domainName betaProps)
                            (Domain.stageName betaProps)) /\
    output_value "ProdWebsiteUrl" outs =
      Some ("https://" ++ Domain.formatDomainName (Domain.domainName prodProps)
                            (Domain.stageName prodProps)).
Proof.
  do 2 eexists. split; [reflexivity|]. split; reflexivity.
Qed.

End PipelineExtras.

(** ** The deployment and cleanup scripts *)

Section ScriptExtras.
Import Script.

Lemma no_ifs_app a b : no_ifs (a ++ b) = no_ifs a && no_ifs b.
Proof. induction a as [|c a IH]; simpl; [reflexivity|]. rewrite IH. apply andb_assoc. Qed.

Lemma split_acc_word cur a r :
  no_ifs a = true -> split_acc cur (a ++ r) = split_acc (cur ++ a) r.
Proof.
  revert cur. induction a as [|c a IH]; intros cur H.
  - simpl. rewrite append_nil_r. reflexivity.
  - simpl in H. destruct (is_ifs c) eqn:Ec; [discriminate H|]. simpl in H.
    simpl. rewrite Ec, IH by exact H. rewrite append_assoc_str. reflexivity.
Qed.

Lemma is_empty_app_cons a c b : is_empty (a ++ String c b) = false.
Proof. destruct a; reflexivity. Qed.

Lemma is_empty_app_char a c b : is_empty (a ++ String c EmptyString ++ b) = false.
Proof. destruct a; reflexivity. Qed.

(** An expansion without blank, tab or newline is one word (or none when
    it is empty). *)
Lemma word_split_no_ifs s :
  no_ifs s = true -> word_split s = if is_empty s then [] else [s].
Proof.
  intros H. unfold word_split. rewrite <- (append_nil_r s) at 1.
  rewrite split_acc_word by exact H. reflexivity.
Qed.

Lemma word_split_prefixed p c s :
  no_ifs (String c p) = true -> no_ifs s = true -> word_split (String c p ++ s) = [String c p ++ s].
Proof.
  intros Hp Hs. rewrite word_split_no_ifs by (rewrite no_ifs_app, Hp, Hs; reflexivity).
  reflexivity.
Qed.

Ltac script_unfold :=
  unfold run_script, automate_deployment, and_, env_guard,
    KEY_ARN, FRONT_END_KEY_ARN, WEBSITE_KEY_ARN in *;
  cbv zeta.

Ltac script_run :=
  cbn -[scrape word_split];
  repeat match goal with
         | |- context [if ?b then _ else _] => destruct b eqn:?; cbn -[scrape word_split]
         end.

Ltac script_cases e w :=
  script_unfold;
  destruct (is_empty (expand e "PIPELINE_ACCOUNT_ID") || is_empty (expand e "BETA_ACCOUNT_ID")
            || is_empty (expand e "PROD_ACCOUNT_ID")) eqn:?;
  [|destruct (is_empty (scrape w "PipelineDeploymentStack" "KeyArn")) eqn:?;
    [|destruct (is_empty (scrape w "FrontEndPipelineDeploymentStack" "KeyArn")) eqn:?;
      [|destruct (is_empty (scrape w "WebsitePipelineStack"
                              "WebsiteArtifactBucketEncryptionKeyArn")) eqn:?]]];
  script_run.

Lemma not_empty_is_empty s : s <> "" -> is_empty s = false.
Proof. intros H. unfold is_empty. destruct (String.eqb_spec s ""); congruence. Qed.

(** The four role-patching deploys of lines 111-133 run exactly when the
    account guard passes and the three scraped key ARNs are non-empty. *)
Theorem role_patching_iff (e : env) (w : world) :
  existsb is_role_patch (outcome_trace (run_script e w)) =
  negb (env_guard e) && negb (is_empty (KEY_ARN w)) && negb (is_empty (FRONT_END_KEY_ARN w))
  && negb (is_empty (WEBSITE_KEY_ARN w)).
Proof. script_cases e w. all: reflexivity. Qed.

(** When the account ids and the scraped key ARNs are single words, the
    role patches deploy the two role templates to both accounts (beta
    first, then for prod the CloudFormation role before the CodePipeline
    role), each with the pipeline account, the stage and the three key
    ARNs as parameter overrides. *)
Theorem role_patch_commands (e : env) (w : world)
  (Hg : env_guard e = false)
  (Hp : no_ifs (expand e "PIPELINE_ACCOUNT_ID") = true)
  (H1 : KEY_ARN w <> "") (H1' : no_ifs (KEY_ARN w) = true)
  (H2 : FRONT_END_KEY_ARN w <> "") (H2' : no_ifs (FRONT_END_KEY_ARN w) = true)
  (H3 : WEBSITE_KEY_ARN w <> "") (H3' : no_ifs (WEBSITE_KEY_ARN w) = true) :
  let O stage := ["PipelineAccountID=" ++ expand e "PIPELINE_ACCOUNT_ID"; "Stage=" ++ stage;
                  "KeyArn=" ++ KEY_ARN w; "FrontEndKeyArn=" ++ FRONT_END_KEY_ARN w;
                  "WebsiteKeyArn=" ++ WEBSITE_KEY_ARN w] in
  filter is_role_patch (outcome_trace (run_script e w)) =
  [ECmd 111 (aws_cfn_deploy CPX "CodePipelineCrossAccountRole" "beta" (O "Beta"));
   ECmd 117 (aws_cfn_deploy CFD "CloudFormationDeploymentRole" "beta" (O "Beta"));
   ECmd 123 (aws_cfn_deploy CFD "CloudFormationDeploymentRole" "prod" (O "Prod"));
   ECmd 129 (aws_cfn_deploy CPX "CodePipelineCrossAccountRole" "prod" (O "Prod"))].
Proof.
  apply not_empty_is_empty in H1, H2, H3.
  script_unfold.
  rewrite Hg, H1, H2, H3.
  rewrite !word_split_prefixed by (reflexivity || assumption).
  script_run; reflexivity.
Qed.

Lemma role_patch_commands_witness :
  env_guard accounts_set = false /\
  filter is_role_patch (outcome_trace (run_script accounts_set keyed_world)) <> [].
Proof.
  split; [reflexivity|].
  rewrite (role_patch_commands accounts_set keyed_world); try (vm_compute; reflexivity);
    try (vm_compute; discriminate).
Defined.

(** Once the guard and the three key checks pass, the script always ends
    with status 0 (the status of its last [printf]), whatever the AWS and
    git commands return; [git push] runs exactly when [git add] and
    [git commit] both succeed. *)
Theorem deployment_exit_and_push (e : env) (w : world)
  (Hg : env_guard e = false)
  (H1 : KEY_ARN w <> "") (H2 : FRONT_END_KEY_ARN w <> "") (H3 : WEBSITE_KEY_ARN w <> "") :
  exists s, run_script e w = Exited s 0 /\
    (In (ECmd 137 ["git"; "push"]) (trace s) <->
     cmdStatus w ["git"; "add"; "."] = 0%Z /\
     cmdStatus w ["git"; "commit"; "-m"; "Automated Commit"] = 0%Z).
Proof.
  apply not_empty_is_empty in H1, H2, H3.
  script_unfold.
  rewrite Hg, H1, H2, H3.
  script_run; eexists; (split; [reflexivity|]);
    repeat match goal with H : (_ =? 0)%Z = _ |- _ =>
             first [apply Z.eqb_eq in H | apply Z.eqb_neq in H] end;
    split; intros H;
    try solve [ split; assumption
          | exfalso; destruct H; contradiction
          | cbn [trace In]; repeat (first [left; reflexivity | right])
          | exfalso; cbn [trace In] in H;
            repeat (destruct H as [H|H]; [discriminate H|]); exact H ].
Qed.

Lemma deployment_exit_and_push_witness :
  env_guard accounts_set = false /\
  exists s, run_script accounts_set keyed_world = Exited s 0 /\
    In (ECmd 137 ["git"; "push"]) (trace s).
Proof.
  split; [reflexivity|].
  destruct (deployment_exit_and_push accounts_set keyed_world eq_refl)
    as [s [E P]]; try (vm_compute; discriminate).
  exists s. split; [exact E|]. apply P. split; reflexivity.
Defined.

Lemma sed_skip pre rest :
  forallb (fun l => negb (contains "Outputs:" l)) pre = true ->
  sed_outputs false (app pre rest) = sed_outputs false rest.
Proof.
  induction pre as [|l pre IH]; simpl; [reflexivity|].
  destruct (contains "Outputs:" l); simpl; [discriminate|exact IH].
Qed.

Lemma sed_range ls rest :
  forallb (fun l => negb (is_empty l)) ls = true ->
  sed_outputs true (app ls ("" :: rest)) = app ls ("" :: sed_outputs false rest).
Proof.
  induction ls as [|l ls IH]; simpl; [reflexivity|].
  destruct (is_empty l); simpl; [discriminate|]. intros H. rewrite IH by exact H. reflexivity.
Qed.

Lemma awk_app pat a b :
  awk_print3 pat (app a b) = (awk_print3 pat a ++ awk_print3 pat b)%string.
Proof.
  unfold awk_print3. rewrite fold_right_app.
  induction a as [|l a IH]; [reflexivity|]. simpl.
  destruct (contains pat l); [|exact IH]. rewrite IH, append_assoc_str. reflexivity.
Qed.

Lemma forallb_map {A B} (f : B -> bool) (g : A -> B) l :
  forallb f (map g l) = forallb (fun x => f (g x)) l.
Proof. induction l as [|x l IH]; simpl; congruence. Qed.

Lemma awk_cons pat l r :
  awk_print3 pat (l :: r) =
  if contains pat l then (awk_field3 l ++ String (ascii_of_nat 10) (awk_print3 pat r))%string
  else awk_print3 pat r.
Proof. reflexivity. Qed.

Lemma awk_none pat ls :
  forallb (fun l => negb (contains pat l)) ls = true -> awk_print3 pat ls = "".
Proof.
  induction ls as [|l ls IH]; [reflexivity|]. simpl.
  unfold awk_print3 in IH |- *. simpl.
  destruct (contains pat l); simpl; [discriminate|exact IH].
Qed.

Lemma list_ascii_app a b :
  list_ascii_of_string (a ++ b) = (list_ascii_of_string a ++ list_ascii_of_string b)%list.
Proof. induction a as [|c a IH]; simpl; congruence. Qed.

Lemma drop_newlines_id l :
  forallb (fun c => negb (Ascii.eqb c (ascii_of_nat 10))) l = true -> drop_newlines l = l.
Proof.
  destruct l as [|c l]; simpl; [reflexivity|].
  destruct (Ascii.eqb c (ascii_of_nat 10)); [discriminate|reflexivity].
Qed.

Lemma no_ifs_no_newline v :
  no_ifs v = true ->
  forallb (fun c => negb (Ascii.eqb c (ascii_of_nat 10))) (list_ascii_of_string v) = true.
Proof.
  induction v as [|c v IH]; simpl; [reflexivity|].
  unfold is_ifs. destruct (Ascii.eqb c (ascii_of_nat 10)); rewrite ?orb_true_r, ?orb_false_r; simpl;
    [discriminate|]. intros H. apply andb_prop in H. exact (IH (proj2 H)).
Qed.

Lemma strip_one_newline v :
  no_ifs v = true -> strip_trailing_newlines (v ++ String (ascii_of_nat 10) "") = v.
Proof.
  intros H. unfold strip_trailing_newlines.
  rewrite list_ascii_app. simpl list_ascii_of_string at 2. rewrite rev_unit.
  cbn [drop_newlines]. rewrite Ascii.eqb_refl.
  rewrite drop_newlines_id, rev_involutive, string_of_list_ascii_of_string; [reflexivity|].
  apply forallb_forall. intros c Hc. apply in_rev in Hc.
  exact (proj1 (forallb_forall _ _) (no_ifs_no_newline v H) c Hc).
Qed.

(** [awk -F " " '{ print $3 }'] on a line [Stack.OutputId = value]. *)
Lemma awk_field3_output stack id v :
  no_ifs stack = true -> no_ifs id = true -> no_ifs v = true ->
  awk_field3 (stack ++ "." ++ id ++ " = " ++ v) = v.
Proof.
  intros Hs Hi Hv. unfold awk_field3, word_split.
  rewrite split_acc_word by exact Hs. simpl append at 1.
  change ("." ++ id ++ " = " ++ v)%string with (String "." (id ++ " = " ++ v)).
  cbn [split_acc]. replace (is_ifs ".") with false by reflexivity.
  rewrite split_acc_word by exact Hi.
  change (" = " ++ v)%string with (String " " (String "=" (String " " v))).
  cbn [split_acc]. replace (is_ifs " ") with true by reflexivity.
  rewrite append_assoc_str, is_empty_app_cons.
  cbn [split_acc append]. replace (is_ifs "=") with false by reflexivity.
  cbn [split_acc append]. replace (is_ifs " ") with true by reflexivity.
  replace (is_empty "=") with false by reflexivity.
  rewrite <- (append_nil_r v) at 1. rewrite split_acc_word by exact Hv.
  rewrite ?is_empty_app_cons. simpl. destruct (is_empty v) eqn:E; [|reflexivity].
  unfold is_empty in E. apply String.eqb_eq in E. subst v. reflexivity.
Qed.

(** What [sed -n -e '/Outputs:/,/^$/ p'] and [awk '/PAT/ { print $3 }']
    extract from a deploy log: when the log holds one [Outputs:] section,
    the line of output [id] is the only one matching the pattern, and the
    stack name, output id and value are single words, the scraped value is
    the output's value. *)
Theorem scrape_output_value (w : world) (stack pat : string)
  (pre post : list string) (before after : list (string * string)) (id v : string)
  (Hw : cdkOutput w stack = (pre ++ cdk_outputs_section stack (before ++ (id, v) :: after) ++ post)%list)
  (Hpre : forallb (fun l => negb (contains "Outputs:" l)) pre = true)
  (Hpost : forallb (fun l => negb (contains "Outputs:" l)) post = true)
  (Hhead : contains pat "Outputs:" = false) (Hblank : contains pat "" = false)
  (Hothers : forallb (fun o => negb (contains pat (stack ++ "." ++ fst o ++ " = " ++ snd o)))
               (app before after) = true)
  (Hid : contains pat (stack ++ "." ++ id ++ " = " ++ v) = true)
  (Hs : no_ifs stack = true) (Hi : no_ifs id = true) (Hv : no_ifs v = true) :
  scrape w stack pat = v.
Proof.
  unfold scrape. rewrite Hw, sed_skip by exact Hpre.
  unfold cdk_outputs_section. cbn [sed_outputs app].
  replace (contains "Outputs:" "Outputs:") with true by reflexivity.
  rewrite <- app_assoc. cbn [app]. rewrite sed_range.
  2:{ apply forallb_forall. intros l Hl. apply in_map_iff in Hl.
      destruct Hl as [o [<- _]]. rewrite is_empty_app_char. reflexivity. }
  replace (sed_outputs false post) with (@nil string).
  2:{ symmetry. rewrite <- (app_nil_r post). rewrite sed_skip by exact Hpost. reflexivity. }
  rewrite forallb_app in Hothers. apply andb_prop in Hothers. destruct Hothers as [Hb Ha].
  rewrite awk_cons, Hhead, map_app, <- app_assoc, awk_app.
  rewrite (awk_none pat (map _ before)) by (rewrite forallb_map; exact Hb).
  cbn [map app fst snd]. rewrite awk_cons, Hid, awk_field3_output by assumption.
  rewrite awk_none.
  2:{ rewrite forallb_app, forallb_map, Ha. cbn [forallb andb]. rewrite Hblank. reflexivity. }
  cbn [append]. apply strip_one_newline. exact Hv.
Qed.

Lemma scrape_output_value_witness :
  WEBSITE_KEY_ARN keyed_world = "arn:aws:kms:us-west-2:111111111111:key/website".
Proof.
  unfold WEBSITE_KEY_ARN.
  apply (scrape_output_value keyed_world "WebsitePipelineStack"
           "WebsiteArtifactBucketEncryptionKeyArn" ["Deploying WebsitePipelineStack"] []
           [] (tl website_outputs) "WebsiteArtifactBucketEncryptionKeyArn"
           "arn:aws:kms:us-west-2:111111111111:key/website");
    vm_compute; reflexivity.
Defined.

Lemma cleanup_guard_run e w :
  is_empty (expand e "PIPELINE_ACCOUNT_ID") = true ->
  run_cleanup e w =
  Exited (mkSt [EPrint 11 "Please set PIPELINE_ACCOUNT_ID, BETA_ACCOUNT_ID, and PROD_ACCOUNT_ID";
                EPrint 12 "PIPELINE_ACCOUNT_ID ="] 0) 0.
Proof.
  intros H. unfold run_cleanup, automate_cleanup. cbv zeta.
  unfold seq at 1, if_ at 1. rewrite H. reflexivity.
Qed.

Lemma cleanup_run e w :
  is_empty (expand e "PIPELINE_ACCOUNT_ID") = false ->
  let s := cmdStatus w ["cdk"; "destroy"; "RepositoryStack"; "--profile"; "pipeline"] in
  run_cleanup e w =
  Exited (mkSt
    [ECmd 17 (delete_stack "BetaApplicationDeploymentStack" "beta");
     ECmd 18 (delete_stack "ProdApplicationDeploymentStack" "prod");
     ECmd 21 (["aws"; "s3"; "rm"] ++
              word_split ("s3://artifact-bucket-" ++ expand e "PIPELINE_ACCOUNT_ID")
              ++ ["--recursive"; "--profile"; "pipeline"])%list;
     ECmd 24 ["cdk"; "destroy"; "CrossAccountPipelineStack"; "--profile"; "pipeline"];
     ECmd 27 (delete_stack "CodePipelineCrossAccountRole" "beta");
     ECmd 28 (delete_stack "CodePipelineCrossAccountRole" "prod");
     ECmd 29 (delete_stack "CloudFormationDeploymentRole" "beta");
     ECmd 30 (delete_stack "CloudFormationDeploymentRole" "prod");
     ECmd 33 ["cdk"; "destroy"; "RepositoryStack"; "--profile"; "pipeline"]] s) s.
Proof.
  intros H. unfold run_cleanup, automate_cleanup. cbv zeta.
  unfold seq at 1, if_ at 1. rewrite H. reflexivity.
Qed.

(** [automate_cleanup.sh] with [PIPELINE_ACCOUNT_ID] unset or empty: two
    messages, no command, and a bare [exit] that returns 0. *)
Theorem cleanup_unset_account_exits_zero (e : env) (w : world)
  (Hp : is_empty (expand e "PIPELINE_ACCOUNT_ID") = true) :
  run_cleanup e w =
  Exited (mkSt [EPrint 11 "Please set PIPELINE_ACCOUNT_ID, BETA_ACCOUNT_ID, and PROD_ACCOUNT_ID";
                EPrint 12 "PIPELINE_ACCOUNT_ID ="] 0) 0 /\
  existsb is_cmd (outcome_trace (run_cleanup e w)) = false.
Proof. rewrite (cleanup_guard_run e w Hp). split; reflexivity. Qed.

Lemma cleanup_unset_account_exits_zero_witness :
  is_empty (expand (fun _ => None) "PIPELINE_ACCOUNT_ID") = true /\
  existsb is_cmd (outcome_trace (run_cleanup (fun _ => None) silent_world)) = false.
Proof.
  split; [reflexivity|].
  exact (proj2 (cleanup_unset_account_exits_zero (fun _ => None) silent_world eq_refl)).
Defined.

(** With [PIPELINE_ACCOUNT_ID] set to one word, the cleanup runs its nine
    commands in order, none of them gated on an earlier one, and exits with
    the status of the last one, [cdk destroy RepositoryStack]. *)
Theorem cleanup_commands (e : env) (w : world)
  (Hp : is_empty (expand e "PIPELINE_ACCOUNT_ID") = false)
  (Hw : no_ifs (expand e "PIPELINE_ACCOUNT_ID") = true) :
  let s := cmdStatus w ["cdk"; "destroy"; "RepositoryStack"; "--profile"; "pipeline"] in
  run_cleanup e w =
  Exited (mkSt
    [ECmd 17 (delete_stack "BetaApplicationDeploymentStack" "beta");
     ECmd 18 (delete_stack "ProdApplicationDeploymentStack" "prod");
     ECmd 21 ["aws"; "s3"; "rm"; "s3://artifact-bucket-" ++ expand e "PIPELINE_ACCOUNT_ID";
              "--recursive"; "--profile"; "pipeline"];
     ECmd 24 ["cdk"; "destroy"; "CrossAccountPipelineStack"; "--profile"; "pipeline"];
     ECmd 27 (delete_stack "CodePipelineCrossAccountRole" "beta");
     ECmd 28 (delete_stack "CodePipelineCrossAccountRole" "prod");
     ECmd 29 (delete_stack "CloudFormationDeploymentRole" "beta");
     ECmd 30 (delete_stack "CloudFormationDeploymentRole" "prod");
     ECmd 33 ["cdk"; "destroy"; "RepositoryStack"; "--profile"; "pipeline"]] s) s.
Proof.
  cbv zeta. rewrite (cleanup_run e w Hp).
  rewrite word_split_prefixed by (reflexivity || exact Hw). reflexivity.
Qed.

Lemma cleanup_commands_witness :
  no_ifs (expand accounts_set "PIPELINE_ACCOUNT_ID") = true /\
  outcome_trace (run_cleanup accounts_set silent_world) <> [].
Proof.
  split; [reflexivity|].
  rewrite (cleanup_commands accounts_set silent_world eq_refl eq_refl). discriminate.
Defined.

(** Every (stack, profile) the deployment script deploys with
    [aws cloudformation deploy], on any run, is deleted by the cleanup
    script's [aws cloudformation delete-stack] commands once
    [PIPELINE_ACCOUNT_ID] is set. *)
Theorem cleanup_deletes_deployed_role_stacks (e : env) (w : world) (e' : env) (w' : world)
  (Hp : is_empty (expand e' "PIPELINE_ACCOUNT_ID") = false) :
  forall t, In t (targets (cfn_target "deploy") (outcome_trace (run_script e w))) ->
    In t (targets (cfn_target "delete-stack") (outcome_trace (run_cleanup e' w'))).
Proof.
  rewrite (cleanup_run e' w' Hp). cbv zeta.
  script_cases e w.
  all: intros t Ht; repeat (destruct Ht as [<-|Ht]; [cbn; tauto|]); destruct Ht.
Qed.

Lemma cleanup_deletes_deployed_role_stacks_witness :
  is_empty (expand accounts_set "PIPELINE_ACCOUNT_ID") = false /\
  In ("CodePipelineCrossAccountRole", "beta")
     (targets (cfn_target "delete-stack") (outcome_trace (run_cleanup accounts_set silent_world))).
Proof.
  split; [reflexivity|].
  apply (cleanup_deletes_deployed_role_stacks accounts_set keyed_world accounts_set silent_world
           eq_refl).
  vm_compute. left. reflexivity.
Defined.

(** The cleanup script never destroys a stack the deployment script
    deploys with [npx cdk deploy]: it destroys [CrossAccountPipelineStack]
    and [RepositoryStack], which the deployment never deploys, and leaves
    the three pipeline stacks in place. *)
Theorem cleanup_misses_pipeline_stacks (e : env) (w : world) (e' : env) (w' : world) :
  forall x, In x (targets (cdk_target "deploy") (outcome_trace (run_script e w))) ->
    ~ In x (targets (cdk_target "destroy") (outcome_trace (run_cleanup e' w'))).
Proof.
  destruct (is_empty (expand e' "PIPELINE_ACCOUNT_ID")) eqn:Hp;
    [rewrite (cleanup_guard_run e' w' Hp) | rewrite (cleanup_run e' w' Hp)]; cbv zeta;
    script_cases e w;
    intros x Hx; repeat (destruct Hx as [<-|Hx]; [cbn; intuition discriminate|]); destruct Hx.
Qed.

Lemma cleanup_misses_pipeline_stacks_witness :
  In "WebsitePipelineStack"
     (targets (cdk_target "deploy") (outcome_trace (run_script accounts_set keyed_world))) /\
  ~ In "WebsitePipelineStack"
      (targets (cdk_target "destroy") (outcome_trace (run_cleanup accounts_set silent_world))).
Proof.
  assert (H : In "WebsitePipelineStack"
                (targets (cdk_target "deploy") (outcome_trace (run_script accounts_set keyed_world))))
    by (vm_compute; right; right; left; reflexivity).
  split; [exact H|].
  exact (cleanup_misses_pipeline_stacks accounts_set keyed_world accounts_set silent_world
           "WebsitePipelineStack" H).
Defined.

End ScriptExtras.
